(** * Trim-time validation and simulated download progress of static/js/app.js

    A shallow embedding of the browser-side controller: the pieces of the
    JavaScript runtime the controller leans on (numbers, the regular
    expression of the time pattern, split, Number, toString, padStart, the
    interval timers), the page state the handlers read and write, and the
    handlers themselves, followed by the properties proved about them. *)

From Stdlib Require Import ZArith QArith Qround String Ascii List Sorted Lia Lqa Bool.
From stdpp Require Import base gmap.
Import ListNotations.

Local Open Scope string_scope.
Local Open Scope Z_scope.

(** ** The fragment of the JavaScript runtime used by the controller *)

Module JS.

(** Numbers met by the trim code: integers (exact in a double for every
    value that occurs here) and NaN. *)
Inductive number : Type :=
| Int (z : Z)
| NaN.

Definition num_add (a b : number) : number :=
  match a, b with
  | Int x, Int y => Int (x + y)
  | _, _ => NaN
  end.

Definition num_mul (a b : number) : number :=
  match a, b with
  | Int x, Int y => Int (x * y)
  | _, _ => NaN
  end.

(** Comparisons are false as soon as one side is NaN. *)
Definition num_ge (a b : number) : bool :=
  match a, b with
  | Int x, Int y => y <=? x
  | _, _ => false
  end.

Definition num_le (a b : number) : bool :=
  match a, b with
  | Int x, Int y => x <=? y
  | _, _ => false
  end.

Definition num_gt (a b : number) : bool :=
  match a, b with
  | Int x, Int y => y <? x
  | _, _ => false
  end.

(** [\d]: the ten ASCII digits, nothing else. *)
Definition is_digit (c : ascii) : bool :=
  ((48 <=? nat_of_ascii c)%nat && (nat_of_ascii c <=? 57)%nat)%bool.

Definition digit_value (c : ascii) : Z := Z.of_nat (nat_of_ascii c) - 48.

Definition digit_char (d : Z) : ascii := ascii_of_nat (48 + Z.to_nat d).

(** Regular expressions without star, enough for [/^\d{1,2}:\d{2}$/]. *)
Inductive regex : Type :=
| Eps
| Class (p : ascii -> bool)
| Seq (r1 r2 : regex)
| Alt (r1 r2 : regex).

Fixpoint Times (n : nat) (r : regex) : regex :=
  match n with
  | O => Eps
  | S n' => Seq r (Times n' r)
  end.

(** Greedy [r{0,n}]: one more [r] is tried before giving up. *)
Fixpoint Upto (n : nat) (r : regex) : regex :=
  match n with
  | O => Eps
  | S n' => Alt (Seq r (Upto n' r)) Eps
  end.

(** [r{lo,hi}] *)
Definition Repeat (lo hi : nat) (r : regex) : regex :=
  Seq (Times lo r) (Upto (hi - lo) r).

(** Backtracking matcher: every way [r] can consume a prefix of [s], each
    given by what is left of [s], in the order the engine tries them. *)
Fixpoint run (r : regex) (s : string) : list string :=
  match r with
  | Eps => [s]
  | Class p =>
      match s with
      | String c rest => if p c then [rest] else []
      | EmptyString => []
      end
  | Seq r1 r2 => flat_map (run r2) (run r1 s)
  | Alt r1 r2 => run r1 s ++ run r2 s
  end.

(** [s.match(/^r$/)] is truthy: without the m flag the two anchors are the
    two ends of [s], so some attempt has to consume all of it. *)
Definition matches_whole (r : regex) (s : string) : bool :=
  existsb (fun rest => String.eqb rest "") (run r s).

(** [s.split(sep)] for a one-character separator. *)
Fixpoint split (sep : ascii) (s : string) : list string :=
  match s with
  | EmptyString => [""]
  | String c rest =>
      if Ascii.eqb c sep then "" :: split sep rest
      else match split sep rest with
           | piece :: pieces => String c piece :: pieces
           | [] => [String c ""]
           end
  end.

Fixpoint decimal (acc : Z) (s : string) : option Z :=
  match s with
  | EmptyString => Some acc
  | String c rest =>
      if is_digit c then decimal (10 * acc + digit_value c) rest else None
  end.

(** [Number(s)] on strings of decimal digits (the empty string is 0).
    Signs, fractions, exponents, radix prefixes and white space, which
    Number also accepts, are read as NaN here: behind the time pattern
    only digit strings reach this function (see [split_fields]). *)
Definition Number (s : string) : number :=
  match decimal 0 s with
  | Some z => Int z
  | None => NaN
  end.

Fixpoint decimal_digits (fuel : nat) (n : Z) (acc : string) : string :=
  match fuel with
  | O => acc
  | S fuel' =>
      let acc' := String (digit_char (n mod 10)) acc in
      if n / 10 =? 0 then acc' else decimal_digits fuel' (n / 10) acc'
  end.

(** [n.toString()] for an integer [n]: a binary numeral of [n] has at least
    as many digits as its decimal numeral, which bounds the recursion. *)
Definition toString (n : Z) : string :=
  let render m := decimal_digits (S (Z.to_nat (Z.log2 m))) m "" in
  if n <? 0 then String "-" (render (- n)) else render n.

Fixpoint fill (n : nat) (c : ascii) : string :=
  match n with
  | O => ""
  | S n' => String c (fill n' c)
  end.

(** [s.padStart(target, pad)] for a one-character [pad]. *)
Definition padStart (target : nat) (pad : ascii) (s : string) : string :=
  fill (target - String.length s) pad ++ s.

(** White space of [trim] among the code units below 256. *)
Definition is_space (c : ascii) : bool :=
  let n := nat_of_ascii c in
  ((9 <=? n)%nat && (n <=? 13)%nat || (n =? 32)%nat || (n =? 160)%nat)%bool.

Fixpoint trimStart (s : string) : string :=
  match s with
  | String c rest => if is_space c then trimStart rest else s
  | EmptyString => ""
  end.

Fixpoint trimEnd (s : string) : string :=
  match s with
  | String c rest =>
      match trimEnd rest with
      | EmptyString => if is_space c then "" else String c ""
      | kept => String c kept
      end
  | EmptyString => ""
  end.

Definition trim (s : string) : string := trimEnd (trimStart s).

(** [Math.round(x)]: the integer nearest to [x], halves going up. *)
Definition round (x : Q) : Z := Qfloor (x + (1 # 2)).

End JS.

Import JS.

(** ** Time strings *)

(** [/^\d{1,2}:\d{2}$/] *)
Definition time_pattern : regex :=
  Seq (Repeat 1 2 (Class is_digit))
      (Seq (Class (Ascii.eqb ":")) (Repeat 2 2 (Class is_digit))).

(** [null] is [None]. When the destructuring finds fewer than two pieces,
    [seconds] is undefined, the comparison with 60 is false and the sum is
    NaN. *)
Definition parseTimeToSeconds (timeStr : string) : option number :=
  if (String.eqb timeStr "" || negb (matches_whole time_pattern timeStr))%bool
  then None
  else
    match map Number (split ":" timeStr) with
    | minutes :: seconds :: _ =>
        if num_ge seconds (Int 60) then None
        else Some (num_add (num_mul minutes (Int 60)) seconds)
    | _ => Some NaN
    end.

(** [Math.floor(seconds / 60)] is [Z.div]; [%] keeps the sign of the
    dividend, as [Z.rem] does. *)
Definition secondsToTimeStr (seconds : Z) : string :=
  let minutes := seconds / 60 in
  let secs := Z.rem seconds 60 in
  toString minutes ++ ":" ++ padStart 2 "0" (toString secs).

(** ** Page state *)

(** What the metadata collaborator returned, as far as the trim checks read
    it: [duration] is [None] for null or a missing field, and a whole
    number of seconds otherwise. *)
Record VideoInfo : Type := { duration : option Z }.

Record Format : Type := { format_id : string }.

(** The module-level variables, the DOM properties the handlers read and
    write, and the timers that are live. An entry of [intervals] is a timer
    started by setInterval and not yet cleared, with the current value of
    the [progress] variable its callback closes over. *)
Record Page : Type := mkPage {
  currentVideoInfo : option VideoInfo;
  selectedFormat : option Format;
  isTrimmingEnabled : bool;
  videoUrlInput : string;
  startTimeInput : string;
  endTimeInput : string;
  errorMessage : string;
  errorModalHidden : bool;
  downloadBtnDisabled : bool;
  downloadProgressHidden : bool;
  progressFill : Q;
  progressText : string;
  progressPercentage : Z;
  intervals : gmap nat Q;
  nextInterval : nat
}.

Definition set_error (message : string) (hidden : bool) (st : Page) : Page :=
  mkPage (currentVideoInfo st) (selectedFormat st) (isTrimmingEnabled st)
         (videoUrlInput st) (startTimeInput st) (endTimeInput st)
         message hidden
         (downloadBtnDisabled st) (downloadProgressHidden st)
         (progressFill st) (progressText st) (progressPercentage st)
         (intervals st) (nextInterval st).

Definition set_download_ui (disabled hidden : bool) (st : Page) : Page :=
  mkPage (currentVideoInfo st) (selectedFormat st) (isTrimmingEnabled st)
         (videoUrlInput st) (startTimeInput st) (endTimeInput st)
         (errorMessage st) (errorModalHidden st)
         disabled hidden
         (progressFill st) (progressText st) (progressPercentage st)
         (intervals st) (nextInterval st).

Definition set_bar (width : Q) (text : string) (label : Z) (st : Page) : Page :=
  mkPage (currentVideoInfo st) (selectedFormat st) (isTrimmingEnabled st)
         (videoUrlInput st) (startTimeInput st) (endTimeInput st)
         (errorMessage st) (errorModalHidden st)
         (downloadBtnDisabled st) (downloadProgressHidden st)
         width text label
         (intervals st) (nextInterval st).

Definition set_intervals (live : gmap nat Q) (next : nat) (st : Page) : Page :=
  mkPage (currentVideoInfo st) (selectedFormat st) (isTrimmingEnabled st)
         (videoUrlInput st) (startTimeInput st) (endTimeInput st)
         (errorMessage st) (errorModalHidden st)
         (downloadBtnDisabled st) (downloadProgressHidden st)
         (progressFill st) (progressText st) (progressPercentage st)
         live next.

(** [setInterval(callback, 500)] where [callback] closes over a variable
    holding [progress]: a handle never issued before, and a live timer. *)
Definition setInterval (progress : Q) (st : Page) : nat * Page :=
  let handle := nextInterval st in
  (handle, set_intervals (<[handle := progress]> (intervals st)) (S handle) st).

Definition clearInterval (handle : nat) (st : Page) : Page :=
  set_intervals (delete handle (intervals st)) (nextInterval st) st.

(** ** Utility functions *)

Definition showError (message : string) (st : Page) : Page :=
  set_error message false st.

Definition hideError (st : Page) : Page :=
  set_error (errorMessage st) true st.

(** ** Trim validation *)

(** [currentVideoInfo && currentVideoInfo.duration] when it is truthy: a
    number other than 0. *)
Definition truthy_duration (st : Page) : option Z :=
  match currentVideoInfo st with
  | Some info =>
      match duration info with
      | Some d => if d =? 0 then None else Some d
      | None => None
      end
  | None => None
  end.

Definition validateTrimTimes (st : Page) : bool * Page :=
  if negb (isTrimmingEnabled st) then (true, st)
  else
    match parseTimeToSeconds (startTimeInput st),
          parseTimeToSeconds (endTimeInput st) with
    | None, _ =>
        (false, showError "Invalid start time format. Use MM:SS (e.g., 2:05)" st)
    | Some _, None =>
        (false, showError "Invalid end time format. Use MM:SS (e.g., 2:35)" st)
    | Some startSeconds, Some endSeconds =>
        if num_le endSeconds startSeconds
        then (false, showError "End time must be after start time" st)
        else
          match truthy_duration st with
          | Some d =>
              if num_ge startSeconds (Int d)
              then (false, showError "Start time cannot be greater than video duration" st)
              else if num_gt endSeconds (Int d)
              then (false, showError "End time cannot be greater than video duration" st)
              else (true, st)
          | None => (true, st)
          end
    end.

(** ** Progress bar *)

Definition updateProgressBar (percentage : Q) (text : string) (st : Page) : Page :=
  set_bar percentage text (round percentage) st.

Definition showDownloadProgress (st : Page) : Page :=
  updateProgressBar 0 "Preparing download..." (set_download_ui true false st).

Definition hideDownloadProgress (st : Page) : Page :=
  set_download_ui false true st.

Definition Qgtb (a b : Q) : bool := negb (Qle_bool a b).

(** The first two statements of the timer callback; [r] is the value
    [Math.random()] returned. The sum and the product are exact here,
    where the program rounds each of them to a double: what is proved of
    [advance] below is the order, the range and the label of what is
    painted, which rounding keeps; the values computed below come from
    draws of one half, on which the doubles are exact. *)
Definition advance (r progress : Q) : Q :=
  let progress := (progress + r * 15)%Q in
  if Qgtb progress 90 then 90%Q else progress.

(** The status text the callback then picks. *)
Definition statusText (progress : Q) (trimming : bool) : string :=
  let statusText := "Downloading..." in
  let statusText :=
    if (Qgtb progress 30 && trimming)%bool then "Processing video..." else statusText in
  let statusText :=
    if (Qgtb progress 60 && trimming)%bool then "Trimming video..." else statusText in
  statusText.

(** The body of the callback given to setInterval, on the variable it
    closes over and on the page. *)
Definition progressInterval_callback (r progress : Q) (st : Page) : Q * Page :=
  let progress := advance r progress in
  (progress,
   updateProgressBar progress (statusText progress (isTrimmingEnabled st)) st).

(** The timer [handle] comes due. A cleared timer runs nothing. *)
Definition interval_fires (handle : nat) (r : Q) (st : Page) : Page :=
  match intervals st !! handle with
  | Some progress =>
      let (progress', st') := progressInterval_callback r progress st in
      set_intervals (<[handle := progress']> (intervals st')) (nextInterval st') st'
  | None => st
  end.

(** ** The download button *)

(** The body of the request sent to /api/download. [trim_times] is null
    ([None]) or an array whose elements are null or numbers. *)
Record Payload : Type := {
  url : string;
  payload_format_id : string;
  trim_times : option (list (option number))
}.

Definition downloadVideo_payload
    (url : string) (formatId : string)
    (trimTimes : option (list (option number))) : Payload :=
  {| url := url; payload_format_id := formatId; trim_times := trimTimes |}.

(** The click handler up to the point where it waits for the download:
    the page it leaves, and, when a download was started, the handle of
    the progress timer and the payload sent. *)
Definition downloadBtn_click (st : Page) : Page * option (nat * Payload) :=
  match selectedFormat st with
  | None => (showError "Please select a video format first" st, None)
  | Some fmt =>
      let (valid, st) := validateTrimTimes st in
      if negb valid then (st, None)
      else
        let st := showDownloadProgress st in
        let trimTimes :=
          if isTrimmingEnabled st
          then Some [parseTimeToSeconds (startTimeInput st);
                     parseTimeToSeconds (endTimeInput st)]
          else None in
        let (progressInterval, st) := setInterval 0 st in
        (st, Some (progressInterval,
                   downloadVideo_payload (trim (videoUrlInput st))
                                         (format_id fmt) trimTimes))
  end.

(** The handler resumes after the download resolved: the timer is cleared
    and the bar completed. (The result panel, shown a second later, is not
    part of the model.) *)
Definition download_resolved (progressInterval : nat) (st : Page) : Page :=
  updateProgressBar 100 "Download complete!" (clearInterval progressInterval st).

(** The handler resumes in its catch block after the download was
    rejected with [message]. *)
Definition download_rejected (message : string) (st : Page) : Page :=
  showError message (hideDownloadProgress st).

(** The page on which the specification's
    [validateRange(startText, endText, trimmingEnabled, mediaDuration)] is
    read: the two trim inputs, the checkbox and the duration of the video
    shown, a format selected, nothing else touched yet. *)
Definition trim_form
    (startText endText : string) (trimmingEnabled : bool)
    (mediaDuration : option Z) : Page :=
  mkPage (Some {| duration := mediaDuration |}) (Some {| format_id := "18" |})
         trimmingEnabled "https://www.youtube.com/watch?v=Af2rvOlj9UU"
         startText endText "" true false true 0 "" 0 empty 1.

Fixpoint ticks (handle : nat) (rs : list Q) (st : Page) : Page :=
  match rs with
  | [] => st
  | r :: rs' => ticks handle rs' (interval_fires handle r st)
  end.

(** ** The vocabulary of the specification *)

Inductive ParseError : Type := MalformedFormat | InvalidSeconds.

Inductive ValidationError : Type :=
| BadStart
| BadEnd
| EndNotAfterStart
| StartBeyondMedia
| EndBeyondMedia.

Inductive Phase : Type := PREPARING | DOWNLOADING | PROCESSING | TRIMMING | COMPLETE.

(** The message the page shows for each kind of validation error. *)
Definition error_text (e : ValidationError) : string :=
  match e with
  | BadStart => "Invalid start time format. Use MM:SS (e.g., 2:05)"
  | BadEnd => "Invalid end time format. Use MM:SS (e.g., 2:35)"
  | EndNotAfterStart => "End time must be after start time"
  | StartBeyondMedia => "Start time cannot be greater than video duration"
  | EndBeyondMedia => "End time cannot be greater than video duration"
  end.

(** The label the page shows for each phase. *)
Definition phase_label (p : Phase) : string :=
  match p with
  | PREPARING => "Preparing download..."
  | DOWNLOADING => "Downloading..."
  | PROCESSING => "Processing video..."
  | TRIMMING => "Trimming video..."
  | COMPLETE => "Download complete!"
  end.

(** The specification's time pattern, one or two digits, a colon, exactly
    two digits, read off a string character by character: the minutes and
    seconds fields of a text of that shape. *)
Definition time_fields (text : string) : option (Z * Z) :=
  match text with
  | String m (String c (String s1 (String s2 EmptyString))) =>
      if (is_digit m && Ascii.eqb ":" c && is_digit s1 && is_digit s2)%bool
      then Some (digit_value m, 10 * digit_value s1 + digit_value s2)
      else None
  | String m1 (String m2 (String c (String s1 (String s2 EmptyString)))) =>
      if (is_digit m1 && is_digit m2 && Ascii.eqb ":" c
          && is_digit s1 && is_digit s2)%bool
      then Some (10 * digit_value m1 + digit_value m2,
                 10 * digit_value s1 + digit_value s2)
      else None
  | _ => None
  end.

(** The specification's [parseTime]: seconds, or the kind of the failure. *)
Definition spec_parseTime (text : string) : ParseError + Z :=
  match time_fields text with
  | None => inl MalformedFormat
  | Some (minutes, seconds) =>
      if seconds <=? 59 then inr (minutes * 60 + seconds)
      else inl InvalidSeconds
  end.

(** The five checks of the specification's [validateRange], each as a
    condition of its own on the parsed start, the parsed end and the
    duration that is known. *)
Definition applies
    (e : ValidationError) (start end_ : option number) (known : option Z) : bool :=
  match e with
  | BadStart => match start with None => true | Some _ => false end
  | BadEnd => match end_ with None => true | Some _ => false end
  | EndNotAfterStart =>
      match start, end_ with
      | Some s, Some e => num_le e s
      | _, _ => false
      end
  | StartBeyondMedia =>
      match start, known with
      | Some s, Some d => num_ge s (Int d)
      | _, _ => false
      end
  | EndBeyondMedia =>
      match end_, known with
      | Some e, Some d => num_gt e (Int d)
      | _, _ => false
      end
  end.

(** The order in which the specification lists them. *)
Definition check_order : list ValidationError :=
  [BadStart; BadEnd; EndNotAfterStart; StartBeyondMedia; EndBeyondMedia].

(** The first check of the list that applies, if any does. *)
Definition first_failure
    (start end_ : option number) (known : option Z) : option ValidationError :=
  find (fun e => applies e start end_ known) check_order.

(** What [validateTrimTimes] does when check [failure] is the one
    reported: the one message of that check is shown, nothing else. *)
Definition outcome (failure : option ValidationError) (st : Page) : bool * Page :=
  match failure with
  | Some e => (false, showError (error_text e) st)
  | None => (true, st)
  end.

(** The phase a status text stands for under the specification's bands:
    below 30 downloading, from 30 up to 60 processing and from 60 on
    trimming when the run trims. *)
Definition spec_phase (percent : Q) (trimming : bool) : Phase :=
  if negb trimming then DOWNLOADING
  else if Qle_bool 60 percent then TRIMMING
  else if Qle_bool 30 percent then PROCESSING
  else DOWNLOADING.

(** ** Runs of the progress timer *)

(** What [Math.random()] may return. *)
Definition draw (r : Q) : Prop := (0 <= r < 1)%Q.

(** ** Pages used as examples *)

(** A trimming download is started and its timer ticks four times, each
    time with [Math.random()] returning one half. *)
Definition four_half_ticks : Page :=
  ticks 1 [1 # 2; 1 # 2; 1 # 2; 1 # 2]%Q
        (fst (downloadBtn_click (trim_form "0:10" "0:40" true None))).

(** A first download is rejected, the error is dismissed, and a second
    download is started and resolves. *)
Definition completed_after_rejection : Page :=
  let st1 := fst (downloadBtn_click (trim_form "" "" false None)) in
  let st2 := download_rejected "Download failed: Network error" st1 in
  let st3 := fst (downloadBtn_click (hideError st2)) in
  download_resolved 2 st3.

(** Then the timer of the first download, which the catch block left
    running, comes due. *)
Definition tick_of_rejected_run : Page :=
  interval_fires 1 (1 # 2) completed_after_rejection.

(** ** Further functions of the controller *)

(** [seconds] is [None] for null or undefined, which [!seconds] treats as
    it treats 0. *)
Definition formatDuration (seconds : option Z) : string :=
  match seconds with
  | None => "Unknown"
  | Some seconds =>
      if seconds =? 0 then "Unknown"
      else
        let hours := seconds / 3600 in
        let minutes := Z.rem seconds 3600 / 60 in
        let secs := Z.rem seconds 60 in
        if 0 <? hours
        then toString hours ++ ":" ++ padStart 2 "0" (toString minutes)
             ++ ":" ++ padStart 2 "0" (toString secs)
        else toString minutes ++ ":" ++ padStart 2 "0" (toString secs)
  end.

(** The element below the trim inputs: its text and its class. *)
Record Span : Type := { textContent : string; className : string }.

Definition num_sub (a b : number) : number :=
  match a, b with
  | Int x, Int y => Int (x - y)
  | _, _ => NaN
  end.

(** [secondsToTimeStr] on a number: on NaN the quotient and the remainder
    are NaN and both print as the text NaN. *)
Definition secondsToTimeStr_of (seconds : number) : string :=
  match seconds with
  | Int z => secondsToTimeStr z
  | NaN => "NaN:NaN"
  end.

(** The input handler of the two trim inputs; it writes the span and
    nothing else. *)
Definition updateTrimDuration (st : Page) : Span :=
  let invalid :=
    {| textContent := "Clip duration: Invalid times"; className := "text-error" |} in
  match parseTimeToSeconds (startTimeInput st),
        parseTimeToSeconds (endTimeInput st) with
  | Some startSeconds, Some endSeconds =>
      if num_gt endSeconds startSeconds
      then
        let duration := num_sub endSeconds startSeconds in
        {| textContent := "Clip duration: " ++ secondsToTimeStr_of duration;
           className := "text-success" |}
      else invalid
  | _, _ => invalid
  end.

(** A text whose characters are all decimal digits. *)
Fixpoint all_digits (s : string) : bool :=
  match s with
  | EmptyString => true
  | String c rest => (is_digit c && all_digits rest)%bool
  end.

(** A time text without the leading zero of two-digit minutes. *)
Definition drop_leading_zero (text : string) : string :=
  match text with
  | String c rest =>
      if (Ascii.eqb c "0" && (String.length rest =? 4)%nat)%bool then rest
      else text
  | EmptyString => ""
  end.

(** ** The format grid *)

(** A format descriptor of the metadata, as far as the choice of the
    formats to show reads it: the format proper, with its [format_id], the
    video codec and the height, each [None] when null or missing. *)
Record Descriptor : Type := {
  descriptor_format : Format;
  vcodec : option string;
  height : option Z
}.

(** [fmt.vcodec && fmt.vcodec !== 'none'] *)
Definition has_video (fmt : Descriptor) : bool :=
  match vcodec fmt with
  | Some codec => (negb (String.eqb codec "") && negb (String.eqb codec "none"))%bool
  | None => false
  end.

(** [fmt.height || 0] *)
Definition height_or_0 (fmt : Descriptor) : Z :=
  match height fmt with
  | Some h => h
  | None => 0
  end.

(** [sort((a, b) => (b.height || 0) - (a.height || 0))]. The sort of an
    array is stable and the comparator orders the formats by their
    heights, so the result is the one arrangement by decreasing height that
    keeps formats of equal height in their order, whatever algorithm the
    engine runs; insertion from the right computes it. *)
Fixpoint insert_by_height (x : Descriptor) (sorted : list Descriptor)
  : list Descriptor :=
  match sorted with
  | [] => [x]
  | y :: rest =>
      if height_or_0 x <? height_or_0 y then y :: insert_by_height x rest
      else x :: sorted
  end.

Definition sort_by_height (formats : list Descriptor) : list Descriptor :=
  fold_right insert_by_height [] formats.

(** The formats for which [displayFormats] makes a card, in the order of
    the cards. *)
Definition videoFormats (formats : list Descriptor) : list Descriptor :=
  firstn 12 (sort_by_height (List.filter has_video formats)).

Definition set_selectedFormat (selected : option Format) (st : Page) : Page :=
  mkPage (currentVideoInfo st) selected (isTrimmingEnabled st)
         (videoUrlInput st) (startTimeInput st) (endTimeInput st)
         (errorMessage st) (errorModalHidden st)
         (downloadBtnDisabled st) (downloadProgressHidden st)
         (progressFill st) (progressText st) (progressPercentage st)
         (intervals st) (nextInterval st).

(** The click on the card of [format]; the marking of the card and the two
    sections it reveals are outside the page state. *)
Definition selectFormat (format : Descriptor) (st : Page) : Page :=
  set_selectedFormat (Some (descriptor_format format)) st.

(** Not shorter than: the order of the cards. *)
Definition not_shorter (a b : Descriptor) : Prop :=
  height_or_0 b <= height_or_0 a.

(** The formats of height [k] in a list, in their order. *)
Definition of_height (k : Z) (formats : list Descriptor) : list Descriptor :=
  List.filter (fun fmt => height_or_0 fmt =? k) formats.

(** ** The remaining handlers, on the page state *)

Definition set_form
    (info : option VideoInfo) (selected : option Format) (trimming : bool)
    (url startText endText : string) (st : Page) : Page :=
  mkPage info selected trimming url startText endText
         (errorMessage st) (errorModalHidden st)
         (downloadBtnDisabled st) (downloadProgressHidden st)
         (progressFill st) (progressText st) (progressPercentage st)
         (intervals st) (nextInterval st).

(** The change handler of the trimming checkbox. *)
Definition enableTrimming_change (checked : bool) (st : Page) : Page :=
  set_form (currentVideoInfo st) (selectedFormat st) checked
           (videoUrlInput st) (startTimeInput st) (endTimeInput st) st.

(** The user edits the two trim inputs. *)
Definition trim_inputs_typed (startText endText : string) (st : Page) : Page :=
  set_form (currentVideoInfo st) (selectedFormat st) (isTrimmingEnabled st)
           (videoUrlInput st) startText endText st.

(** The user edits the URL input. *)
Definition url_typed (url : string) (st : Page) : Page :=
  set_form (currentVideoInfo st) (selectedFormat st) (isTrimmingEnabled st)
           url (startTimeInput st) (endTimeInput st) st.

(** The click on "download another". *)
Definition downloadAnother_click (st : Page) : Page :=
  set_form None None false "" "" "" st.

(** The submit handler of the URL form up to the point where it waits for
    the metadata: the page it leaves and the URL it asks about, if it
    asks. *)
Definition urlForm_submit (st : Page) : Page * option string :=
  let url := trim (videoUrlInput st) in
  if String.eqb url "" then (showError "Please enter a valid YouTube URL" st, None)
  else
    (set_form None None (isTrimmingEnabled st)
              (videoUrlInput st) (startTimeInput st) (endTimeInput st) st,
     Some url).

(** [displayVideoInfo], called when the metadata arrived. *)
Definition displayVideoInfo (videoInfo : VideoInfo) (st : Page) : Page :=
  set_form (Some videoInfo) (selectedFormat st) (isTrimmingEnabled st)
           (videoUrlInput st) (startTimeInput st) (endTimeInput st) st.

(** The timeout a second after the download resolved, on the page state. *)
Definition result_timeout (st : Page) : Page := hideDownloadProgress st.

(** What can happen to the page, one handler or timer at a time. *)
Inductive Event : Type :=
| UrlTyped (url : string)
| UrlSubmitted
| InfoArrived (videoInfo : VideoInfo)
| InfoFailed (message : string)
| CardClicked (format : Descriptor)
| TrimmingChanged (checked : bool)
| TrimInputsTyped (startText endText : string)
| DownloadClicked
| TimerDue (handle : nat) (r : Q)
| DownloadResolved (handle : nat)
| ResultTimeout
| DownloadRejected (message : string)
| ErrorDismissed
| AnotherClicked.

Definition handle_event (ev : Event) (st : Page) : Page :=
  match ev with
  | UrlTyped url => url_typed url st
  | UrlSubmitted => fst (urlForm_submit st)
  | InfoArrived videoInfo => displayVideoInfo videoInfo st
  | InfoFailed message => showError message st
  | CardClicked format => selectFormat format st
  | TrimmingChanged checked => enableTrimming_change checked st
  | TrimInputsTyped startText endText => trim_inputs_typed startText endText st
  | DownloadClicked => fst (downloadBtn_click st)
  | TimerDue handle r => interval_fires handle r st
  | DownloadResolved handle => download_resolved handle st
  | ResultTimeout => result_timeout st
  | DownloadRejected message => download_rejected message st
  | ErrorDismissed => hideError st
  | AnotherClicked => downloadAnother_click st
  end.

Fixpoint handle_events (evs : list Event) (st : Page) : Page :=
  match evs with
  | [] => st
  | ev :: rest => handle_events rest (handle_event ev st)
  end.


(** The random number of an event, when it draws one, is one
    [Math.random()] can return. *)
Definition fair (ev : Event) : Prop :=
  match ev with
  | TimerDue _ r => draw r
  | _ => True
  end.

(** What the handlers keep true of the timers and of the bar: a live timer
    has a handle already issued and a variable between 0 and 90, and the
    bar is between 0 and 100 with its rounded label. *)
Definition well_formed (st : Page) : Prop :=
  (forall handle p, intervals st !! handle = Some p ->
                    (handle < nextInterval st)%nat /\ (0 <= p <= 90)%Q) /\
  (0 <= progressFill st <= 100)%Q /\
  progressPercentage st = round (progressFill st).

(** From [st] to [st'] no timer variable went down and no handle was
    reissued: a timer live in [st'] under a handle issued by the time of
    [st] was live in [st], with a variable not above the one it has now. *)
Definition timers_grew (st st' : Page) : Prop :=
  (nextInterval st <= nextInterval st')%nat /\
  forall handle p', intervals st' !! handle = Some p' ->
    (handle < nextInterval st)%nat ->
    exists p, intervals st !! handle = Some p /\ (p <= p')%Q.

(** White space only, the empty text included. *)
Fixpoint all_space (s : string) : bool :=
  match s with
  | EmptyString => true
  | String c rest => (is_space c && all_space rest)%bool
  end.

(** ** The two requests *)

(** What a request to the backend comes to: the fetch itself fails, or it
    gets an answer that is not ok, or one that is. Reading the body of the
    answer either throws ([inl], with the message of the error thrown while
    the body or its error field is read) or gives data ([inr]). *)
Inductive Response (Data ErrorData : Type) : Type :=
| FetchFailed (message : string)
| NotOk (body : string + ErrorData)
| Ok (body : string + Data).

Arguments FetchFailed {Data ErrorData} message.
Arguments NotOk {Data ErrorData} body.
Arguments Ok {Data ErrorData} body.

(** How an async function settles. *)
Inductive Settled (A : Type) : Type :=
| Resolves (value : A)
| Rejects (message : string).

Arguments Resolves {A} value.
Arguments Rejects {A} message.

(** The object [downloadVideo] resolves with; it has no filename. *)
Record DownloadResult : Type := {
  success : bool;
  message : string;
  filename : option string
}.

Section Requests.

(** The JSON values of the backend, and the [error] field of one when it
    is truthy, as text. *)
Variables Data ErrorData : Type.
Variable error_of : ErrorData -> option string.

Definition or_default (field : option string) (default : string) : string :=
  match field with
  | Some text => text
  | None => default
  end.

(** [downloadVideo] past its fetch: every error thrown inside the try
    block, its own included, is caught and thrown again with a prefix. *)
Definition downloadVideo (response : Response Data ErrorData)
  : Settled DownloadResult :=
  match response with
  | FetchFailed message => Rejects ("Download failed: " ++ message)
  | NotOk (inl message) => Rejects ("Download failed: " ++ message)
  | NotOk (inr errorData) =>
      Rejects ("Download failed: "
               ++ or_default (error_of errorData) "Download failed")
  | Ok (inl message) => Rejects ("Download failed: " ++ message)
  | Ok (inr result) =>
      Resolves {| success := true;
                  message := "Download completed successfully!";
                  filename := None |}
  end.

Definition fetchVideoInfo (response : Response Data ErrorData)
  : Settled Data :=
  match response with
  | FetchFailed message => Rejects ("Failed to fetch video info: " ++ message)
  | NotOk (inl message) => Rejects ("Failed to fetch video info: " ++ message)
  | NotOk (inr errorData) =>
      Rejects ("Failed to fetch video info: "
               ++ or_default (error_of errorData)
                             "Failed to fetch video information")
  | Ok (inl message) => Rejects ("Failed to fetch video info: " ++ message)
  | Ok (inr videoInfo) => Resolves videoInfo
  end.

End Requests.

(** The result panel: its message and whether it is hidden. *)
Record ResultPanel : Type := {
  resultMessage : string;
  downloadResultHidden : bool
}.

(** [filename] is [None] when null, undefined or the empty text. *)
Definition showDownloadResult
    (success : bool) (message : string) (filename : option string)
    (st : Page) (panel : ResultPanel) : Page * ResultPanel :=
  if success then
    (st,
     {| resultMessage :=
          match filename with
          | Some name => message ++ " File: " ++ name
          | None => message
          end;
        downloadResultHidden := false |})
  else (showError message st, panel).

(** The click handler of the download button from the moment the download
    settles to its end, the timeout of the success path included. *)
Definition download_settled
    (progressInterval : nat) (outcome : Settled DownloadResult)
    (st : Page) (panel : ResultPanel) : Page * ResultPanel :=
  match outcome with
  | Resolves result =>
      showDownloadResult true (message result) (filename result)
                         (hideDownloadProgress
                            (download_resolved progressInterval st))
                         panel
  | Rejects message => (download_rejected message st, panel)
  end.

(** ** More examples *)

Definition example_format
    (id : string) (codec : option string) (h : option Z) : Descriptor :=
  {| descriptor_format := {| format_id := id |}; vcodec := codec; height := h |}.

(** A low video format, an audio format and a high video format. *)
Definition example_formats : list Descriptor :=
  [example_format "18" (Some "avc1.42001E") (Some 360);
   example_format "140" (Some "none") None;
   example_format "137" (Some "avc1.640028") (Some 1080)].

(** The timer of a first download ticks, the download is rejected, the
    error dismissed, a second download started; the first timer ticks
    again, the second download resolves, the first timer ticks once
    more. *)
Definition example_events : list Event :=
  [TimerDue 1 (1 # 2); DownloadRejected "Download failed: Network error";
   ErrorDismissed; DownloadClicked; TimerDue 1 (9 # 10); DownloadResolved 2;
   TimerDue 1 (1 # 3)].




(** A first download was rejected, its error dismissed, and a second
    download is pending. *)
Definition second_download_pending : Page :=
  handle_events
    [DownloadClicked; DownloadRejected "Download failed: Network error";
     ErrorDismissed; DownloadClicked]
    (trim_form "" "" false None).

(** * Properties *)

(** [lia] reads quotients and remainders by a constant. *)
Ltac Zify.zify_post_hook ::= Z.to_euclidean_division_equations.

(** ** The time pattern *)

#[local] Arguments Ascii.eqb : simpl never.
#[local] Arguments is_digit : simpl never.
#[local] Arguments digit_value : simpl never.
#[local] Arguments digit_char : simpl never.

(** Case analysis on the character tests a goal is stuck on, keeping what
    each test returned for the occurrences that show up later. *)
Ltac use_tests :=
  repeat match goal with
         | H : is_digit ?x = _ |- context [is_digit ?x] => rewrite H
         | H : Ascii.eqb ":" ?x = _ |- context [Ascii.eqb ":" ?x] => rewrite H
         end.

Ltac step := cbv -[is_digit Ascii.eqb digit_value Z.mul Z.add Z.leb Number].

Ltac split_tests :=
  repeat (step; use_tests;
          match goal with
          | |- context [is_digit ?x] => destruct (is_digit x) eqn:?
          | |- context [Ascii.eqb ":" ?x] => destruct (Ascii.eqb ":" x) eqn:?
          end);
  step; use_tests.

(** The regular expression accepts the texts the specification's pattern
    describes, and no other. *)
Lemma time_pattern_fields s :
  matches_whole time_pattern s =
  match time_fields s with Some _ => true | None => false end.
Proof.
  destruct s as [|a [|b [|c [|d [|e [|f s]]]]]]; split_tests; try reflexivity.
Qed.

Lemma digit_not_colon c : is_digit c = true -> Ascii.eqb c ":" = false.
Proof.
  intros H.
  destruct (Ascii.eqb_spec c ":") as [->|]; [discriminate H | reflexivity].
Qed.

Lemma fields_inv (P : Prop) (b : bool) (v w : Z * Z) :
  (if b then Some v else None) = Some w -> (b = true -> v = w -> P) -> P.
Proof. destruct b; [intros [= <-]; auto | discriminate]. Qed.

Ltac digit_facts :=
  repeat match goal with
         | H : (_ && _)%bool = true |- _ => apply andb_prop in H; destruct H
         | H : Ascii.eqb ":" ?c = true |- _ => apply Ascii.eqb_eq in H; subst c
         | H : is_digit ?c = true |- context [Ascii.eqb ?c ":"] =>
             rewrite (digit_not_colon c H)
         | H : is_digit ?c = true |- context [is_digit ?c] => rewrite H
         end.

(** On such a text split and Number recover the two fields. *)
Lemma split_fields s m sec :
  time_fields s = Some (m, sec) ->
  map Number (split ":" s) = [Int m; Int sec].
Proof.
  destruct s as [|a [|b [|c [|d [|e [|f s]]]]]]; try discriminate;
    intros H; apply (fields_inv _ _ _ _ H); clear H; intros H [= <- <-];
    unfold Number;
    repeat (progress (cbn [split map decimal]; digit_facts;
                      rewrite ?Ascii.eqb_refl));
    repeat (f_equal; try lia).
Qed.

Lemma fields_nonempty s : time_fields s <> None -> String.eqb s "" = false.
Proof. destruct s; [intros H; now elim H | reflexivity]. Qed.

Lemma parse_spec s :
  parseTimeToSeconds s =
  match spec_parseTime s with inr z => Some (Int z) | inl _ => None end.
Proof.
  unfold parseTimeToSeconds, spec_parseTime.
  rewrite time_pattern_fields.
  destruct (time_fields s) as [[m sec]|] eqn:E.
  - rewrite fields_nonempty by congruence.
    rewrite (split_fields _ _ _ E). cbn.
    destruct (Z.leb_spec 60 sec), (Z.leb_spec sec 59); try lia; reflexivity.
  - now rewrite orb_true_r.
Qed.

(** ** Decimal numerals *)

Lemma digit_char_is_digit d : 0 <= d <= 9 -> is_digit (digit_char d) = true.
Proof.
  intros H. assert (E : d = 0 \/ d = 1 \/ d = 2 \/ d = 3 \/ d = 4 \/ d = 5
                        \/ d = 6 \/ d = 7 \/ d = 8 \/ d = 9) by lia.
  repeat (destruct E as [-> | E]; [reflexivity |]). now subst.
Qed.

Lemma digit_char_value d : 0 <= d <= 9 -> digit_value (digit_char d) = d.
Proof.
  intros H. assert (E : d = 0 \/ d = 1 \/ d = 2 \/ d = 3 \/ d = 4 \/ d = 5
                        \/ d = 6 \/ d = 7 \/ d = 8 \/ d = 9) by lia.
  repeat (destruct E as [-> | E]; [reflexivity |]). now subst.
Qed.

Lemma toString_one_digit n :
  0 <= n <= 9 -> toString n = String (digit_char n) "".
Proof.
  intros H. unfold toString.
  destruct (Z.ltb_spec n 0); [lia |].
  cbn [decimal_digits].
  rewrite Z.div_small, Z.mod_small by lia. reflexivity.
Qed.

Lemma toString_two_digits n :
  10 <= n <= 99 ->
  toString n = String (digit_char (n / 10)) (String (digit_char (n mod 10)) "").
Proof.
  intros H. unfold toString.
  destruct (Z.ltb_spec n 0); [lia |].
  assert (L : 3 <= Z.log2 n)
    by (change 3 with (Z.log2 10); apply Z.log2_le_mono; lia).
  destruct (Z.to_nat (Z.log2 n)) as [|fuel] eqn:F; [lia |].
  cbn [decimal_digits].
  destruct (Z.eqb_spec (n / 10) 0) as [E|_]; [lia |].
  rewrite (Z.div_small (n / 10)), (Z.mod_small (n / 10)) by lia. reflexivity.
Qed.

Lemma decimal_digits_length fuel n acc :
  (String.length acc <= String.length (decimal_digits fuel n acc))%nat.
Proof.
  revert n acc. induction fuel as [|fuel IH]; intros n acc; cbn [decimal_digits].
  - lia.
  - destruct (n / 10 =? 0); [cbn; lia |].
    etransitivity; [| apply IH]. cbn. lia.
Qed.

Lemma toString_three_digits n :
  100 <= n -> (3 <= String.length (toString n))%nat.
Proof.
  intros H. unfold toString.
  destruct (Z.ltb_spec n 0); [lia |].
  assert (L : 6 <= Z.log2 n)
    by (change 6 with (Z.log2 100); apply Z.log2_le_mono; lia).
  destruct (Z.to_nat (Z.log2 n)) as [|[|fuel]] eqn:F; [lia | lia |].
  cbn [decimal_digits].
  destruct (Z.eqb_spec (n / 10) 0) as [E|_]; [lia |].
  destruct (Z.eqb_spec (n / 10 / 10) 0) as [E|_]; [lia |].
  destruct (n / 10 / 10 / 10 =? 0); [cbn; lia |].
  etransitivity; [| apply decimal_digits_length]. cbn. lia.
Qed.

Lemma string_length_app (a b : string) :
  String.length (a ++ b) = (String.length a + String.length b)%nat.
Proof. induction a as [|c a IH]; simpl; [reflexivity | now rewrite IH]. Qed.

Lemma padStart_length target pad s :
  (target <= String.length (padStart target pad s))%nat.
Proof.
  unfold padStart. rewrite string_length_app.
  assert (F : forall n, String.length (fill n pad) = n)
    by (induction n as [|n IH]; simpl; [reflexivity | now rewrite IH]).
  rewrite F. lia.
Qed.

Lemma string_app_assoc (a b c : string) : ((a ++ b) ++ c = a ++ (b ++ c))%string.
Proof.
  induction a as [|x a IH]; [reflexivity |].
  exact (f_equal (String x) IH).
Qed.

Lemma decimal_app (s1 s2 : string) : forall acc,
  decimal acc (s1 ++ s2) =
  match decimal acc s1 with Some v => decimal v s2 | None => None end.
Proof.
  induction s1 as [|c s1 IH]; intros acc; [reflexivity |].
  change (decimal acc (String c (s1 ++ s2)) =
          match decimal acc (String c s1) with
          | Some v => decimal v s2
          | None => None
          end).
  cbn [decimal]. destruct (is_digit c); [apply IH | reflexivity].
Qed.

Lemma decimal_one_digit d acc :
  0 <= d <= 9 -> decimal acc (String (digit_char d) "") = Some (10 * acc + d).
Proof.
  intros H. cbn [decimal].
  now rewrite digit_char_is_digit, digit_char_value by assumption.
Qed.

(** With enough fuel the digits produced are the decimal numeral of [n],
    put in front of the accumulator. *)
Lemma decimal_digits_numeral fuel : forall n acc,
  0 <= n < 10 ^ Z.of_nat (S fuel) ->
  exists ds,
    decimal_digits (S fuel) n acc = ds ++ acc /\
    forall a, decimal a ds = Some (a * 10 ^ Z.of_nat (String.length ds) + n).
Proof.
  induction fuel as [|fuel IH]; intros n acc B.
  - exists (String (digit_char (n mod 10)) ""). split.
    + cbn [decimal_digits]. now destruct (n / 10 =? 0).
    + intros a. change (10 ^ Z.of_nat 1) with 10 in B.
      rewrite decimal_one_digit by lia. cbn [String.length]. f_equal. lia.
  - cbn [decimal_digits]. fold (decimal_digits (S fuel)).
    destruct (Z.eqb_spec (n / 10) 0) as [E|E].
    + exists (String (digit_char (n mod 10)) ""). split; [reflexivity |].
      intros a. rewrite decimal_one_digit by lia. cbn [String.length].
      f_equal. lia.
    + assert (B' : 0 <= n / 10 < 10 ^ Z.of_nat (S fuel)).
      { rewrite (Nat2Z.inj_succ (S fuel)), Z.pow_succ_r in B by lia. lia. }
      destruct (IH (n / 10) (String (digit_char (n mod 10)) acc) B')
        as (ds & E1 & E2).
      exists (ds ++ String (digit_char (n mod 10)) ""). split.
      * rewrite string_app_assoc. exact E1.
      * intros a. rewrite decimal_app, E2, decimal_one_digit by lia.
        rewrite string_length_app. cbn [String.length].
        rewrite Nat.add_1_r, Nat2Z.inj_succ, Z.pow_succ_r by lia.
        f_equal. lia.
Qed.

Lemma toString_Number n : 0 <= n -> Number (toString n) = Int n.
Proof.
  intros H. unfold toString. destruct (Z.ltb_spec n 0); [lia |].
  destruct (decimal_digits_numeral (Z.to_nat (Z.log2 n)) n "") as (ds & E1 & E2).
  - split; [exact H |].
    rewrite Nat2Z.inj_succ, Z2Nat.id by apply Z.log2_nonneg.
    destruct (Z.eq_dec n 0) as [-> | N]; [reflexivity |].
    apply Z.lt_le_trans with (2 ^ Z.succ (Z.log2 n)).
    + apply Z.log2_spec. lia.
    + apply Z.pow_le_mono_l. lia.
  - rewrite E1. unfold Number. rewrite decimal_app, E2.
    reflexivity.
Qed.

Lemma fields_length s :
  time_fields s <> None -> (String.length s <= 5)%nat.
Proof.
  destruct s as [|a [|b [|c [|d [|e [|f s]]]]]]; cbn; try lia.
  intros H. now elim H.
Qed.

Lemma two_digit_seconds sec :
  0 <= sec <= 59 ->
  padStart 2 "0" (toString sec) =
  String (digit_char (sec / 10)) (String (digit_char (sec mod 10)) "").
Proof.
  intros H. destruct (Z.le_gt_cases sec 9).
  - rewrite toString_one_digit by lia.
    rewrite Z.div_small, Z.mod_small by lia. reflexivity.
  - rewrite toString_two_digits by lia. reflexivity.
Qed.

Lemma fields_of_rendering m sec :
  0 <= m <= 99 -> 0 <= sec <= 59 ->
  time_fields (toString m ++ ":" ++ padStart 2 "0" (toString sec)) = Some (m, sec).
Proof.
  intros Hm Hs. rewrite two_digit_seconds by assumption.
  assert (D1 : 0 <= sec / 10 <= 9) by lia.
  assert (D2 : 0 <= sec mod 10 <= 9) by lia.
  destruct (Z.le_gt_cases m 9).
  - rewrite toString_one_digit by lia. cbv [String.append time_fields].
    rewrite !digit_char_is_digit, !digit_char_value by lia.
    cbn. f_equal. f_equal. pose proof (Z.div_mod sec 10). lia.
  - rewrite toString_two_digits by lia. cbv [String.append time_fields].
    assert (0 <= m / 10 <= 9) by lia.
    assert (0 <= m mod 10 <= 9) by lia.
    rewrite !digit_char_is_digit, !digit_char_value by lia.
    cbn. f_equal. f_equal; [pose proof (Z.div_mod m 10) | pose proof (Z.div_mod sec 10)]; lia.
Qed.

(** ** What parsing returns *)

Lemma digit_value_range c : is_digit c = true -> 0 <= digit_value c <= 9.
Proof.
  unfold is_digit, digit_value. intros H.
  apply andb_prop in H as [H1 H2].
  apply Nat.leb_le in H1, H2. lia.
Qed.

Lemma fields_range s m sec :
  time_fields s = Some (m, sec) -> 0 <= m <= 99 /\ 0 <= sec <= 99.
Proof.
  destruct s as [|a [|b [|c [|d [|e [|f s]]]]]]; try discriminate;
    intros H; apply (fields_inv _ _ _ _ H); clear H; intros H [= <- <-];
    repeat match goal with
           | H : (_ && _)%bool = true |- _ => apply andb_prop in H; destruct H
           | H : is_digit _ = true |- _ => apply digit_value_range in H
           end; lia.
Qed.

Lemma spec_parseTime_nonneg text seconds :
  spec_parseTime text = inr seconds -> 0 <= seconds.
Proof.
  unfold spec_parseTime.
  destruct (time_fields text) as [[m sec]|] eqn:E; [| discriminate].
  apply fields_range in E.
  destruct (sec <=? 59); [intros [= <-]; lia | discriminate].
Qed.

Lemma parse_Int text n :
  parseTimeToSeconds text = Some n ->
  exists z, n = Int z /\ spec_parseTime text = inr z /\ 0 <= z.
Proof.
  rewrite parse_spec. destruct (spec_parseTime text) as [e|z] eqn:E; [discriminate |].
  intros [= <-]. exists z. repeat split.
  now apply spec_parseTime_nonneg in E.
Qed.

Lemma parseTimeToSeconds_not_NaN text : parseTimeToSeconds text <> Some NaN.
Proof.
  intros H. apply parse_Int in H as (z & E & _). discriminate E.
Qed.

(** ** Validation *)

Lemma validate_first_failure st :
  isTrimmingEnabled st = true ->
  validateTrimTimes st =
  outcome (first_failure (parseTimeToSeconds (startTimeInput st))
                         (parseTimeToSeconds (endTimeInput st))
                         (truthy_duration st)) st.
Proof.
  intros T. unfold validateTrimTimes, first_failure. rewrite T. cbn [negb].
  destruct (parseTimeToSeconds (startTimeInput st)) as [s|]; [| reflexivity].
  destruct (parseTimeToSeconds (endTimeInput st)) as [e|]; [| reflexivity].
  cbn. destruct (num_le e s); [reflexivity |].
  destruct (truthy_duration st) as [d|]; [| reflexivity].
  destruct (num_ge s (Int d)); [reflexivity |].
  destruct (num_gt e (Int d)); reflexivity.
Qed.

Lemma validate_true st st' :
  validateTrimTimes st = (true, st') -> st' = st.
Proof.
  unfold validateTrimTimes.
  repeat match goal with
         | |- context [match ?x with _ => _ end] => destruct x
         end; intros [= <-] || discriminate; reflexivity.
Qed.

(** ** Progress *)

Lemma Qgtb_true a b : Qgtb a b = true <-> (b < a)%Q.
Proof.
  unfold Qgtb. rewrite negb_true_iff.
  destruct (Qle_bool a b) eqn:E.
  - apply Qle_bool_iff in E. split; [discriminate | intros H; lra].
  - split; [intros _ | reflexivity].
    apply Qnot_le_lt. intros H. apply Qle_bool_iff in H. congruence.
Qed.

Lemma Qgtb_false a b : Qgtb a b = false <-> (a <= b)%Q.
Proof.
  unfold Qgtb. rewrite negb_false_iff. apply Qle_bool_iff.
Qed.

Lemma Qgtb_false_both percent :
  (percent <= 30)%Q -> Qgtb percent 30 = false /\ Qgtb percent 60 = false.
Proof.
  intros H. split; apply Qgtb_false; lra.
Qed.

Lemma advance_step r p :
  (0 <= r < 1)%Q -> (0 <= p <= 90)%Q ->
  (p <= advance r p /\ 0 <= advance r p <= 90)%Q.
Proof.
  intros Hr Hp. unfold advance.
  destruct (Qgtb (p + r * 15) 90) eqn:E.
  - apply Qgtb_true in E. lra.
  - apply Qgtb_false in E. lra.
Qed.

Lemma advance_capped r p : (advance r p <= 90)%Q.
Proof.
  unfold advance. destruct (Qgtb (p + r * 15) 90) eqn:E.
  - lra.
  - now apply Qgtb_false in E.
Qed.

Lemma statusText_not_complete progress trimming :
  statusText progress trimming <> phase_label COMPLETE.
Proof.
  unfold statusText.
  destruct (Qgtb progress 60 && trimming)%bool; [discriminate |].
  destruct (Qgtb progress 30 && trimming)%bool; discriminate.
Qed.

(** ** Examples *)

Example parse_2_05 : parseTimeToSeconds "2:05" = Some (Int 125).
Proof. reflexivity. Qed.

Example parse_12_30 : parseTimeToSeconds "12:30" = Some (Int 750).
Proof. reflexivity. Qed.

Example parse_2_75 : parseTimeToSeconds "2:75" = None.
Proof. reflexivity. Qed.

Example parse_123_00 : parseTimeToSeconds "123:00" = None.
Proof. reflexivity. Qed.

Example parse_trailing_newline :
  parseTimeToSeconds (String "2" (String ":" (String "0" (String "5" (String "010" ""))))) = None.
Proof. reflexivity. Qed.

Example show_125 : secondsToTimeStr 125 = "2:05".
Proof. reflexivity. Qed.

Example show_6000 : secondsToTimeStr 6000 = "100:00".
Proof. reflexivity. Qed.

Example validate_2_05_2_35 :
  validateTrimTimes (trim_form "2:05" "2:35" true None)
  = (true, trim_form "2:05" "2:35" true None).
Proof. reflexivity. Qed.

Example validate_2_35_2_05 :
  validateTrimTimes (trim_form "2:35" "2:05" true None)
  = outcome (Some EndNotAfterStart) (trim_form "2:35" "2:05" true None).
Proof. reflexivity. Qed.

Example validate_beyond_100 :
  validateTrimTimes (trim_form "2:05" "2:35" true (Some 100))
  = outcome (Some StartBeyondMedia) (trim_form "2:05" "2:35" true (Some 100)).
Proof. reflexivity. Qed.

(** ** Parsing *)

(** C2: for every text of the shape one or two digits, a colon, two digits,
    with seconds at most 59, [parseTimeToSeconds] returns the integer
    minutes * 60 + seconds, which is not negative; for every other text,
    of another shape or with seconds of 60 or more, it returns null. *)
Theorem parseTimeToSeconds_refines_parseTime (text : string) :
  parseTimeToSeconds text =
    match spec_parseTime text with
    | inr seconds => Some (Int seconds)
    | inl _ => None
    end /\
  (forall seconds, spec_parseTime text = inr seconds -> 0 <= seconds).
Proof.
  split; [apply parse_spec | apply spec_parseTime_nonneg].
Qed.

Lemma parseTimeToSeconds_refines_parseTime_witness :
  spec_parseTime "2:05" = inr 125 /\
  parseTimeToSeconds "2:05" = Some (Int 125) /\ 0 <= 125.
Proof.
  split; [reflexivity |].
  split.
  - exact (proj1 (parseTimeToSeconds_refines_parseTime "2:05")).
  - exact (proj2 (parseTimeToSeconds_refines_parseTime "2:05") 125 eq_refl).
Defined.

(** C3, as the claim states it, fails: a text of the wrong shape and a text
    with seconds of 60 or more are two failure kinds of the specification,
    and the code returns the same null for both and shows the same message
    for both, so no caller can tell them apart. *)
Lemma parse_failure_kinds_coincide :
  spec_parseTime "2:5" = inl MalformedFormat /\
  spec_parseTime "2:75" = inl InvalidSeconds /\
  parseTimeToSeconds "2:5" = parseTimeToSeconds "2:75" /\
  errorMessage (snd (validateTrimTimes (trim_form "2:5" "2:35" true None)))
  = errorMessage (snd (validateTrimTimes (trim_form "2:75" "2:35" true None))) /\
  ~ (exists kind_of : option number -> ParseError,
       forall text e, spec_parseTime text = inl e ->
                      kind_of (parseTimeToSeconds text) = e).
Proof.
  repeat split; try reflexivity.
  intros [kind_of K].
  pose proof (K "2:5" MalformedFormat eq_refl) as K1.
  pose proof (K "2:75" InvalidSeconds eq_refl) as K2.
  change (parseTimeToSeconds "2:5") with (@None number) in K1.
  change (parseTimeToSeconds "2:75") with (@None number) in K2.
  congruence.
Qed.

(** C3, amended: whatever the kind of the failure, wrong shape or seconds
    of 60 or more, [parseTimeToSeconds] returns null; validation with
    trimming enabled then shows the one message of the field that failed,
    the start message when the start text fails and the end message when
    the start text parses and the end text fails. *)
Theorem parse_failures_share_one_report (st : Page) :
  isTrimmingEnabled st = true ->
  (forall e, spec_parseTime (startTimeInput st) = inl e ->
     parseTimeToSeconds (startTimeInput st) = None /\
     validateTrimTimes st = outcome (Some BadStart) st) /\
  (forall start e,
     spec_parseTime (startTimeInput st) = inr start ->
     spec_parseTime (endTimeInput st) = inl e ->
     parseTimeToSeconds (endTimeInput st) = None /\
     validateTrimTimes st = outcome (Some BadEnd) st).
Proof.
  intros T. split.
  - intros e E. rewrite (validate_first_failure st T), parse_spec, E. now split.
  - intros start e S E.
    rewrite (validate_first_failure st T), !parse_spec, S, E. now split.
Qed.

Lemma parse_failures_share_one_report_witness :
  validateTrimTimes (trim_form "2:75" "2:35" true None)
  = outcome (Some BadStart) (trim_form "2:75" "2:35" true None) /\
  validateTrimTimes (trim_form "2:05" "abc" true None)
  = outcome (Some BadEnd) (trim_form "2:05" "abc" true None).
Proof.
  split.
  - exact (proj2 (proj1 (parse_failures_share_one_report
                           (trim_form "2:75" "2:35" true None) eq_refl)
                        InvalidSeconds eq_refl)).
  - exact (proj2 (proj2 (parse_failures_share_one_report
                           (trim_form "2:05" "abc" true None) eq_refl)
                        125 MalformedFormat eq_refl eq_refl)).
Defined.

(** C10: parsing the rendering of [s] gives [s] back for every integer
    from 0 to 5999; from 6000 on the minutes field of the rendering, the
    decimal numeral of the minutes, has three digits or more and the
    rendering is rejected. *)
Theorem parse_render_roundtrip :
  (forall s, 0 <= s <= 5999 ->
     parseTimeToSeconds (secondsToTimeStr s) = Some (Int s)) /\
  (forall s, 6000 <= s ->
     Number (toString (s / 60)) = Int (s / 60) /\
     (3 <= String.length (toString (s / 60)))%nat /\
     parseTimeToSeconds (secondsToTimeStr s) = None).
Proof.
  split.
  - intros s H. rewrite parse_spec. unfold spec_parseTime, secondsToTimeStr.
    rewrite Z.rem_mod_nonneg by lia.
    rewrite fields_of_rendering by lia.
    destruct (Z.leb_spec (s mod 60) 59); [| lia].
    f_equal. f_equal. lia.
  - intros s H.
    assert (M : 100 <= s / 60) by lia.
    pose proof (toString_three_digits _ M) as L.
    split; [apply toString_Number; lia |]. split; [exact L |].
    rewrite parse_spec. unfold spec_parseTime, secondsToTimeStr.
    destruct (time_fields _) as [[m sec]|] eqn:E; [| reflexivity].
    assert (F : time_fields (toString (s / 60) ++ ":"
                             ++ padStart 2 "0" (toString (Z.rem s 60))) <> None)
      by congruence.
    apply fields_length in F. rewrite !string_length_app in F.
    pose proof (padStart_length 2 "0" (toString (Z.rem s 60))).
    cbn in F. lia.
Qed.

Lemma parse_render_roundtrip_witness :
  parseTimeToSeconds (secondsToTimeStr 5999) = Some (Int 5999) /\
  parseTimeToSeconds (secondsToTimeStr 6000) = None.
Proof.
  split.
  - apply (proj1 parse_render_roundtrip 5999). lia.
  - apply (proj2 parse_render_roundtrip 6000). lia.
Defined.

(** ** Validation *)

(** C1, as the claim states it, fails on its own example: with start 0:10,
    end 0:05 and a duration of 100 the report is EndNotAfterStart, and
    neither bounds check would fail there, 10 being below 100 and 5 not
    above it. *)
Lemma bounds_pass_in_ordering_example :
  validateTrimTimes (trim_form "0:10" "0:05" true (Some 100))
  = outcome (Some EndNotAfterStart) (trim_form "0:10" "0:05" true (Some 100)) /\
  ~ (applies StartBeyondMedia (parseTimeToSeconds "0:10")
             (parseTimeToSeconds "0:05") (Some 100) = true \/
     applies EndBeyondMedia (parseTimeToSeconds "0:10")
             (parseTimeToSeconds "0:05") (Some 100) = true).
Proof.
  split; [reflexivity |]. intros [H | H]; discriminate H.
Qed.

(** C1, amended: with trimming enabled the checks are made in the order
    start parses, end parses, end after start, start below the duration,
    end not above the duration, the last two only when the duration is
    known and not 0, and the first check that fails is the only one
    reported (its message is shown, nothing else changes); when none fails
    the page is left as it is. With start 0:10, end 0:05 and duration 100
    the report is EndNotAfterStart and no bounds check would fail; with
    start 3:00, end 2:00 and duration 100 the report is EndNotAfterStart
    although both bounds checks would fail too. *)
Theorem validateTrimTimes_reports_first_failure :
  (forall st, isTrimmingEnabled st = true ->
     validateTrimTimes st =
     outcome (first_failure (parseTimeToSeconds (startTimeInput st))
                            (parseTimeToSeconds (endTimeInput st))
                            (truthy_duration st)) st) /\
  (validateTrimTimes (trim_form "0:10" "0:05" true (Some 100))
   = outcome (Some EndNotAfterStart) (trim_form "0:10" "0:05" true (Some 100)) /\
   applies StartBeyondMedia (parseTimeToSeconds "0:10")
           (parseTimeToSeconds "0:05") (Some 100) = false /\
   applies EndBeyondMedia (parseTimeToSeconds "0:10")
           (parseTimeToSeconds "0:05") (Some 100) = false) /\
  (validateTrimTimes (trim_form "3:00" "2:00" true (Some 100))
   = outcome (Some EndNotAfterStart) (trim_form "3:00" "2:00" true (Some 100)) /\
   applies StartBeyondMedia (parseTimeToSeconds "3:00")
           (parseTimeToSeconds "2:00") (Some 100) = true /\
   applies EndBeyondMedia (parseTimeToSeconds "3:00")
           (parseTimeToSeconds "2:00") (Some 100) = true).
Proof.
  split; [exact validate_first_failure |]. repeat split.
Qed.

Lemma validateTrimTimes_reports_first_failure_witness :
  isTrimmingEnabled (trim_form "2:05" "9:99" true (Some 100)) = true /\
  validateTrimTimes (trim_form "2:05" "9:99" true (Some 100))
  = outcome (Some BadEnd) (trim_form "2:05" "9:99" true (Some 100)).
Proof.
  split; [reflexivity |].
  exact (proj1 validateTrimTimes_reports_first_failure
               (trim_form "2:05" "9:99" true (Some 100)) eq_refl).
Defined.

(** C4, as the claim states it, fails: a duration of 0 is a number, not
    null, the start 0 is not below it, and the range 0:00 to 0:05 is
    accepted all the same, with no message. *)
Lemma zero_duration_is_not_checked :
  duration {| duration := Some 0 |} = Some 0 /\
  applies StartBeyondMedia (parseTimeToSeconds "0:00")
          (parseTimeToSeconds "0:05") (Some 0) = true /\
  validateTrimTimes (trim_form "0:00" "0:05" true (Some 0))
  = (true, trim_form "0:00" "0:05" true (Some 0)) /\
  validateTrimTimes (trim_form "0:00" "0:05" true (Some 0))
  <> outcome (Some StartBeyondMedia) (trim_form "0:00" "0:05" true (Some 0)).
Proof.
  repeat split. discriminate.
Qed.

(** C4, amended: for a range whose two texts parse, with the end after the
    start, and a video whose duration is a number [d]: when [d] is not 0,
    validation fails with StartBeyondMedia for every start of [d] or more,
    fails with EndBeyondMedia for every start below [d] with the end above
    [d], and succeeds otherwise; when [d] is 0 the bounds are not checked
    and the range is accepted. *)
Theorem bounds_checked_for_nonzero_duration (st : Page) (info : VideoInfo) (d s e : Z) :
  isTrimmingEnabled st = true ->
  currentVideoInfo st = Some info ->
  duration info = Some d ->
  parseTimeToSeconds (startTimeInput st) = Some (Int s) ->
  parseTimeToSeconds (endTimeInput st) = Some (Int e) ->
  s < e ->
  validateTrimTimes st =
    if d =? 0 then (true, st)
    else if d <=? s then outcome (Some StartBeyondMedia) st
    else if d <? e then outcome (Some EndBeyondMedia) st
    else (true, st).
Proof.
  intros T V D S E L.
  rewrite (validate_first_failure st T), S, E.
  unfold truthy_duration. rewrite V, D.
  unfold first_failure, check_order. cbn.
  destruct (Z.leb_spec e s); [lia |].
  destruct (d =? 0); [reflexivity |]. cbn.
  destruct (d <=? s); [reflexivity |].
  destruct (d <? e); reflexivity.
Qed.

Lemma bounds_checked_for_nonzero_duration_witness :
  validateTrimTimes (trim_form "1:00" "2:35" true (Some 100))
  = outcome (Some EndBeyondMedia) (trim_form "1:00" "2:35" true (Some 100)).
Proof.
  refine (bounds_checked_for_nonzero_duration
            (trim_form "1:00" "2:35" true (Some 100))
            {| duration := Some 100 |} 100 60 155
            eq_refl eq_refl eq_refl eq_refl eq_refl _).
  reflexivity.
Defined.

(** C8: with trimming disabled validation succeeds whatever the two texts
    and the duration are, shows no message and changes nothing; the
    download that follows is sent with no range, null in place of one,
    and the error modal is as it was. *)
Theorem validation_skipped_without_trimming (st : Page) :
  isTrimmingEnabled st = false ->
  validateTrimTimes st = (true, st) /\
  (forall fmt, selectedFormat st = Some fmt ->
     exists st' handle payload,
       downloadBtn_click st = (st', Some (handle, payload)) /\
       trim_times payload = None /\
       errorMessage st' = errorMessage st /\
       errorModalHidden st' = errorModalHidden st).
Proof.
  intros T.
  assert (V : validateTrimTimes st = (true, st))
    by (unfold validateTrimTimes; now rewrite T).
  split; [exact V |].
  intros fmt F. unfold downloadBtn_click. rewrite F, V. cbn.
  rewrite T. eauto 8.
Qed.

Lemma validation_skipped_without_trimming_witness :
  validateTrimTimes (trim_form "" "9:99" false (Some 0))
  = (true, trim_form "" "9:99" false (Some 0)).
Proof.
  exact (proj1 (validation_skipped_without_trimming
                  (trim_form "" "9:99" false (Some 0)) eq_refl)).
Defined.

(** C9: when the click on the download button sends a request, the range
    in its payload is, with trimming enabled, the two-element array of the
    seconds parsed from the start and the end text, in that order, the
    start below the end; and with trimming disabled it is null. A request
    is sent whenever a format is selected and validation succeeds. *)
Theorem trim_times_sent (st : Page) :
  (forall st' handle payload,
     downloadBtn_click st = (st', Some (handle, payload)) ->
     if isTrimmingEnabled st
     then exists s e,
            spec_parseTime (startTimeInput st) = inr s /\
            spec_parseTime (endTimeInput st) = inr e /\
            s < e /\
            trim_times payload = Some [Some (Int s); Some (Int e)]
     else trim_times payload = None) /\
  (forall fmt, selectedFormat st = Some fmt ->
     fst (validateTrimTimes st) = true ->
     exists st' handle payload,
       downloadBtn_click st = (st', Some (handle, payload)) /\
       payload_format_id payload = format_id fmt).
Proof.
  split.
  - intros st' handle payload. unfold downloadBtn_click.
    destruct (selectedFormat st) as [fmt|]; [| discriminate].
    destruct (validateTrimTimes st) as [[|] st1] eqn:V; cbn [negb];
      [| discriminate].
    apply validate_true in V as E. subst st1. cbn.
    destruct (isTrimmingEnabled st) eqn:T; intros [= <- <- <-]; cbn;
      [| reflexivity].
    revert V. unfold validateTrimTimes. rewrite T. cbn [negb].
    destruct (parseTimeToSeconds (startTimeInput st)) as [a|] eqn:A;
      [| discriminate].
    destruct (parseTimeToSeconds (endTimeInput st)) as [b|] eqn:B;
      [| discriminate].
    apply parse_Int in A as (s & -> & A & _).
    apply parse_Int in B as (e & -> & B & _).
    cbn. destruct (Z.leb_spec e s); [discriminate |]. intros _.
    exists s, e. auto.
  - intros fmt F V. unfold downloadBtn_click. rewrite F.
    destruct (validateTrimTimes st) as [valid st1]. cbn in V. subst valid.
    cbn. eauto.
Qed.

Lemma trim_times_sent_witness :
  downloadBtn_click (trim_form "2:05" "2:35" true None)
  = (fst (downloadBtn_click (trim_form "2:05" "2:35" true None)),
     Some (1%nat,
           downloadVideo_payload "https://www.youtube.com/watch?v=Af2rvOlj9UU"
                                 "18" (Some [Some (Int 125); Some (Int 155)]))) /\
  exists s e,
    spec_parseTime "2:05" = inr s /\ spec_parseTime "2:35" = inr e /\ s < e /\
    Some [Some (Int 125); Some (Int 155)] = Some [Some (Int s); Some (Int e)].
Proof.
  split; [reflexivity |].
  exact (proj1 (trim_times_sent (trim_form "2:05" "2:35" true None))
               (fst (downloadBtn_click (trim_form "2:05" "2:35" true None)))
               1%nat
               (downloadVideo_payload
                  "https://www.youtube.com/watch?v=Af2rvOlj9UU"
                  "18" (Some [Some (Int 125); Some (Int 155)]))
               eq_refl).
Defined.

(** ** Progress simulation *)


(** C6: the code breaks the claim. Completing a download clears the timer
    of that download only; a timer that is still live, as the one of a
    rejected download is, runs its callback at its next tick, and the
    callback, which does not look whether the bar is complete, paints its
    own percentage, 90 at most, and a label that is not the complete one
    over the completed bar. *)
Theorem leaked_timer_repaints_completed_bar
    (st : Page) (handle other : nat) (p r : Q) :
  other <> handle ->
  intervals st !! other = Some p ->
  let done := download_resolved handle st in
  (progressFill done = 100%Q /\ progressText done = phase_label COMPLETE) /\
  progressFill (interval_fires other r done) = advance r p /\
  (progressFill (interval_fires other r done) <= 90)%Q /\
  progressText (interval_fires other r done) <> phase_label COMPLETE /\
  interval_fires other r done <> done.
Proof.
  intros N L. cbn zeta.
  assert (L' : intervals (download_resolved handle st) !! other = Some p).
  { unfold download_resolved, clearInterval, updateProgressBar, set_bar,
      set_intervals. cbn [intervals].
    rewrite lookup_delete_ne by congruence. exact L. }
  assert (T : progressText (interval_fires other r (download_resolved handle st))
              <> phase_label COMPLETE).
  { unfold interval_fires. rewrite L'. apply statusText_not_complete. }
  split; [split; reflexivity |].
  split; [unfold interval_fires; rewrite L'; reflexivity |].
  split; [unfold interval_fires; rewrite L'; apply advance_capped |].
  split; [exact T |].
  intros E. apply T. now rewrite E.
Qed.

Lemma leaked_timer_repaints_completed_bar_witness :
  (progressFill (download_resolved 2 second_download_pending) = 100%Q /\
   progressText (download_resolved 2 second_download_pending)
   = phase_label COMPLETE) /\
  progressFill (interval_fires 1 (1 # 2)
                  (download_resolved 2 second_download_pending))
  = advance (1 # 2) 0 /\
  (progressFill (interval_fires 1 (1 # 2)
                   (download_resolved 2 second_download_pending)) <= 90)%Q /\
  progressText (interval_fires 1 (1 # 2)
                  (download_resolved 2 second_download_pending))
  <> phase_label COMPLETE /\
  interval_fires 1 (1 # 2) (download_resolved 2 second_download_pending)
  <> download_resolved 2 second_download_pending.
Proof.
  assert (N : 1%nat <> 2%nat) by discriminate.
  exact (leaked_timer_repaints_completed_bar
           second_download_pending 2%nat 1%nat 0%Q (1 # 2)%Q N eq_refl).
Defined.

(** The timer of the completed download itself is cleared: once the
    download has resolved the bar shows 100 and the label of the complete
    phase, a tick of that timer, or any number of them, leaves the whole
    page as it is, and completing a second time changes nothing. *)
Lemma complete_is_terminal handle st :
  let done := download_resolved handle st in
  (progressFill done = 100%Q /\
   progressPercentage done = 100 /\
   progressText done = phase_label COMPLETE) /\
  (forall r, interval_fires handle r done = done) /\
  (forall rs, ticks handle rs done = done) /\
  download_resolved handle done = done.
Proof.
  cbn zeta.
  assert (F : forall r, interval_fires handle r (download_resolved handle st)
                        = download_resolved handle st).
  { intros r. unfold interval_fires.
    replace (intervals (download_resolved handle st) !! handle) with (@None Q);
      [reflexivity |].
    symmetry. apply lookup_delete_eq. }
  repeat split; try reflexivity.
  - exact F.
  - induction rs as [|r rs IH]; cbn [ticks]; [reflexivity |]. now rewrite F.
  - unfold download_resolved, clearInterval, updateProgressBar, set_bar,
      set_intervals.
    cbn. now rewrite delete_delete_eq.
Qed.

(** The catch block of the click handler does not clear the timer: the
    timer of a rejected download stays live, and a tick of it repaints the
    bar that a later download has completed. *)
Remark rejected_run_keeps_ticking :
  intervals completed_after_rejection !! 1%nat = Some 0%Q /\
  progressFill completed_after_rejection = 100%Q /\
  progressText completed_after_rejection = phase_label COMPLETE /\
  (progressFill tick_of_rejected_run == 15 # 2)%Q /\
  progressText tick_of_rejected_run = phase_label DOWNLOADING.
Proof. repeat split. Qed.

(** C7, as the claim states it, fails at the edge of a band: four ticks
    that each draw one half bring a trimming run to exactly 30, where the
    claim has the processing phase and the page shows the downloading
    label. *)
Lemma band_edge_shows_downloading :
  (progressFill four_half_ticks == 30)%Q /\
  isTrimmingEnabled four_half_ticks = true /\
  spec_phase (progressFill four_half_ticks) (isTrimmingEnabled four_half_ticks)
  = PROCESSING /\
  progressText four_half_ticks = phase_label DOWNLOADING /\
  progressText four_half_ticks
  <> phase_label (spec_phase (progressFill four_half_ticks)
                             (isTrimmingEnabled four_half_ticks)).
Proof.
  repeat split. vm_compute. discriminate.
Qed.

(** C7, amended: the label is a function of the percentage and of the
    trimming flag alone, the one each tick paints from the percentage it
    paints: downloading up to and including 30; with trimming enabled,
    processing above 30 up to and including 60 and trimming above 60; with
    trimming disabled, downloading for every percentage. *)
Theorem statusText_bands :
  (forall percent trimming,
     (percent <= 30)%Q ->
     statusText percent trimming = phase_label DOWNLOADING) /\
  (forall percent,
     (30 < percent <= 60)%Q ->
     statusText percent true = phase_label PROCESSING) /\
  (forall percent,
     (60 < percent)%Q ->
     statusText percent true = phase_label TRIMMING) /\
  (forall percent, statusText percent false = phase_label DOWNLOADING) /\
  (forall handle r st progress,
     intervals st !! handle = Some progress ->
     progressText (interval_fires handle r st)
     = statusText (progressFill (interval_fires handle r st))
                  (isTrimmingEnabled st)).
Proof.
  repeat split.
  - intros percent trimming [H30 H60]%Qgtb_false_both. unfold statusText.
    now rewrite H30, H60.
  - intros percent [L H]. unfold statusText.
    apply Qgtb_true in L. apply Qgtb_false in H. now rewrite L, H.
  - intros percent H. unfold statusText.
    assert (L : (30 < percent)%Q) by lra.
    apply Qgtb_true in L. apply Qgtb_true in H. now rewrite L, H.
  - intros percent. unfold statusText. now rewrite !andb_false_r.
  - intros handle r st progress L. unfold interval_fires. rewrite L.
    reflexivity.
Qed.

Lemma statusText_bands_witness :
  statusText 30 true = phase_label DOWNLOADING /\
  statusText 60 true = phase_label PROCESSING /\
  statusText 90 true = phase_label TRIMMING.
Proof.
  destruct statusText_bands as (D & P & T & _).
  split; [apply D; discriminate |].
  split; [apply P | apply T]; repeat split; discriminate.
Defined.

(** * Further properties *)

(** ** Time texts *)

Lemma parse_of_render s :
  0 <= s <= 5999 -> parseTimeToSeconds (secondsToTimeStr s) = Some (Int s).
Proof.
  intros H. rewrite parse_spec. unfold spec_parseTime, secondsToTimeStr.
  rewrite Z.rem_mod_nonneg by lia.
  rewrite fields_of_rendering by lia.
  destruct (Z.leb_spec (s mod 60) 59); [| lia].
  f_equal. f_equal. lia.
Qed.

Lemma parse_fields text v :
  parseTimeToSeconds text = Some (Int v) ->
  exists m sec,
    time_fields text = Some (m, sec) /\ 0 <= m <= 99 /\ 0 <= sec <= 59 /\
    v = m * 60 + sec.
Proof.
  rewrite parse_spec. unfold spec_parseTime.
  destruct (time_fields text) as [[m sec]|] eqn:E; [| discriminate].
  pose proof (fields_range _ _ _ E).
  destruct (Z.leb_spec sec 59); [| discriminate].
  intros [= <-]. exists m, sec. repeat split; lia.
Qed.

(** X1: every value [parseTimeToSeconds] returns is an integer from 0 to
    5999, and the rendering of that value parses to the same value
    again. *)
Theorem parsed_seconds_normalise text n :
  parseTimeToSeconds text = Some n ->
  exists v, n = Int v /\ 0 <= v <= 5999 /\
            parseTimeToSeconds (secondsToTimeStr v) = Some (Int v).
Proof.
  intros H. destruct (parse_Int _ _ H) as (v & -> & _ & _).
  destruct (parse_fields _ _ H) as (m & sec & _ & Hm & Hs & ->).
  exists (m * 60 + sec). split; [reflexivity |].
  split; [lia |]. apply parse_of_render. lia.
Qed.

Lemma parsed_seconds_normalise_witness :
  exists v, Int 750 = Int v /\ 0 <= v <= 5999 /\
            parseTimeToSeconds (secondsToTimeStr v) = Some (Int v).
Proof.
  exact (parsed_seconds_normalise "12:30" (Int 750) eq_refl).
Defined.

Lemma digit_char_of_value c : is_digit c = true -> digit_char (digit_value c) = c.
Proof.
  intros H. pose proof (digit_value_range c H) as R.
  unfold digit_char, digit_value in *.
  replace (48 + Z.to_nat (Z.of_nat (nat_of_ascii c) - 48))%nat
    with (nat_of_ascii c) by lia.
  apply ascii_nat_embedding.
Qed.

Lemma digit_zero c : is_digit c = true -> digit_value c = 0 -> c = "0"%char.
Proof.
  intros H E. rewrite <- (digit_char_of_value c H), E. reflexivity.
Qed.

Lemma render_fields m sec :
  0 <= m <= 99 -> 0 <= sec <= 59 ->
  secondsToTimeStr (m * 60 + sec) =
  toString m ++ ":" ++ padStart 2 "0" (toString sec).
Proof.
  intros Hm Hs. unfold secondsToTimeStr.
  rewrite Z.rem_mod_nonneg by lia.
  replace ((m * 60 + sec) / 60) with m by lia.
  replace ((m * 60 + sec) mod 60) with sec by lia.
  reflexivity.
Qed.

(** X2: rendering the seconds parsed from a text gives the text back,
    without its first character when the text has two minute digits and
    the first one is 0: 2:05 and 02:05 both come back as 2:05. *)
Theorem render_of_parsed text v :
  parseTimeToSeconds text = Some (Int v) ->
  secondsToTimeStr v = drop_leading_zero text.
Proof.
  intros H. destruct (parse_fields _ _ H) as (m & sec & F & Hm & Hs & ->).
  rewrite render_fields, two_digit_seconds by lia. clear H.
  destruct text as [|a [|b [|c [|d [|e [|f s]]]]]]; try discriminate;
    apply (fields_inv _ _ _ _ F); clear F; intros F [= <- <-];
    repeat match goal with
           | H : (_ && _)%bool = true |- _ => apply andb_prop in H; destruct H
           | H : Ascii.eqb ":" ?c = true |- _ => apply Ascii.eqb_eq in H; subst c
           end;
    repeat match goal with
           | H : is_digit ?c = true |- _ =>
               pose proof (digit_value_range c H);
               pose proof (digit_char_of_value c H);
               revert H
           end; intros.
  - (* M:SS *)
    rewrite toString_one_digit by lia.
    replace ((10 * digit_value c + digit_value d) / 10) with (digit_value c) by lia.
    replace ((10 * digit_value c + digit_value d) mod 10) with (digit_value d) by lia.
    unfold drop_leading_zero. cbn [String.length Nat.eqb].
    rewrite andb_false_r. cbv [String.append]. congruence.
  - (* MM:SS *)
    replace ((10 * digit_value d + digit_value e) / 10) with (digit_value d) in * by lia.
    replace ((10 * digit_value d + digit_value e) mod 10) with (digit_value e) in * by lia.
    unfold drop_leading_zero. cbn [String.length Nat.eqb]. rewrite andb_true_r.
    destruct (Ascii.eqb_spec a "0") as [-> | N].
    + change (digit_value "0") with 0 in *.
      rewrite toString_one_digit by lia.
      replace (10 * 0 + digit_value b) with (digit_value b) by lia.
      cbv [String.append]. congruence.
    + assert (digit_value a <> 0) by (intros Z0; apply N; now apply digit_zero).
      rewrite toString_two_digits by lia.
      replace ((10 * digit_value a + digit_value b) / 10) with (digit_value a) by lia.
      replace ((10 * digit_value a + digit_value b) mod 10) with (digit_value b) by lia.
      cbv [String.append]. congruence.
Qed.

Lemma render_of_parsed_witness :
  secondsToTimeStr 125 = drop_leading_zero "02:05".
Proof.
  exact (render_of_parsed "02:05" 125 eq_refl).
Defined.

(** ** Durations *)

Lemma decimal_all_digits s : forall a,
  decimal a s <> None <-> all_digits s = true.
Proof.
  induction s as [|c s IH]; intros a; cbn [decimal all_digits].
  - split; [reflexivity | discriminate].
  - destruct (is_digit c); [apply IH |].
    split; [intros H; now elim H | discriminate].
Qed.

Lemma all_digits_app (a b : string) :
  all_digits (a ++ b) = (all_digits a && all_digits b)%bool.
Proof.
  induction a as [|c a IH]; [reflexivity |].
  change (all_digits (String c (a ++ b)) =
          (all_digits (String c a) && all_digits b)%bool).
  cbn [all_digits]. now rewrite IH, andb_assoc.
Qed.

Lemma string_app_empty (a : string) : a ++ "" = a.
Proof.
  induction a as [|c a IH]; [reflexivity |]. exact (f_equal (String c) IH).
Qed.

(** The numeral of a number that is not negative: digits only, at least
    one of them. *)
Lemma toString_digits n :
  0 <= n -> all_digits (toString n) = true /\ toString n <> "".
Proof.
  intros H. split.
  - apply (decimal_all_digits _ 0).
    pose proof (toString_Number n H) as N. unfold Number in N.
    destruct (decimal 0 (toString n)); [discriminate | discriminate N].
  - unfold toString. destruct (Z.ltb_spec n 0); [lia |].
    cbn [decimal_digits].
    destruct (n / 10 =? 0); [discriminate |].
    intros E.
    pose proof (decimal_digits_length (Z.to_nat (Z.log2 n)) (n / 10)
                  (String (digit_char (n mod 10)) "")) as L.
    rewrite E in L. cbn in L. lia.
Qed.

Lemma split_digits s rest :
  all_digits s = true ->
  split ":" (s ++ String ":" rest) = s :: split ":" rest.
Proof.
  induction s as [|c s IH]; intros D.
  - reflexivity.
  - cbn [all_digits] in D. apply andb_prop in D as [Dc Ds].
    change (split ":" (String c (s ++ String ":" rest))
            = String c s :: split ":" rest).
    cbn [split]. rewrite (digit_not_colon c Dc), (IH Ds). reflexivity.
Qed.

Lemma split_digits_only s : all_digits s = true -> split ":" s = [s].
Proof.
  induction s as [|c s IH]; intros D; [reflexivity |].
  cbn [all_digits] in D. apply andb_prop in D as [Dc Ds].
  cbn [split]. rewrite (digit_not_colon c Dc), (IH Ds). reflexivity.
Qed.

Lemma two_digits_Number n :
  0 <= n <= 59 ->
  all_digits (padStart 2 "0" (toString n)) = true /\
  Number (padStart 2 "0" (toString n)) = Int n.
Proof.
  intros H. rewrite two_digit_seconds by assumption.
  unfold Number. cbn [all_digits decimal].
  rewrite !digit_char_is_digit, !digit_char_value by lia.
  split; [reflexivity |]. f_equal. lia.
Qed.

(** X3: for a duration of less than an hour [formatDuration] and
    [secondsToTimeStr] print the same text, that text parses back to the
    duration, and a trim from 0:00 to the duration as the page prints it
    passes validation. *)
Theorem formatDuration_under_an_hour (st : Page) (info : VideoInfo) (d : Z) :
  0 < d < 3600 ->
  formatDuration (Some d) = secondsToTimeStr d /\
  parseTimeToSeconds (formatDuration (Some d)) = Some (Int d) /\
  (isTrimmingEnabled st = true ->
   currentVideoInfo st = Some info -> duration info = Some d ->
   startTimeInput st = "0:00" -> endTimeInput st = formatDuration (Some d) ->
   validateTrimTimes st = (true, st)).
Proof.
  intros H.
  assert (E : formatDuration (Some d) = secondsToTimeStr d).
  { unfold formatDuration, secondsToTimeStr.
    destruct (Z.eqb_spec d 0); [lia |].
    rewrite !Z.rem_mod_nonneg by lia.
    replace (d / 3600) with 0 by lia. cbn [Z.ltb Z.compare].
    now replace (d mod 3600 / 60) with (d / 60) by lia. }
  assert (P : parseTimeToSeconds (formatDuration (Some d)) = Some (Int d))
    by (rewrite E; apply parse_of_render; lia).
  repeat split; [exact E | exact P |].
  intros T V D S En.
  rewrite (validate_first_failure st T), S, En, P.
  unfold truthy_duration. rewrite V, D.
  destruct (Z.eqb_spec d 0); [lia |].
  unfold first_failure, check_order.
  change (parseTimeToSeconds "0:00") with (Some (Int 0)).
  cbn. destruct (Z.leb_spec d 0); [lia |]. cbn.
  rewrite Z.ltb_irrefl. reflexivity.
Qed.

Lemma formatDuration_under_an_hour_witness :
  formatDuration (Some 212) = secondsToTimeStr 212 /\
  parseTimeToSeconds (formatDuration (Some 212)) = Some (Int 212) /\
  validateTrimTimes (trim_form "0:00" "3:32" true (Some 212))
  = (true, trim_form "0:00" "3:32" true (Some 212)).
Proof.
  destruct (formatDuration_under_an_hour
              (trim_form "0:00" "3:32" true (Some 212))
              {| duration := Some 212 |} 212 (conj eq_refl eq_refl))
    as (A & B & C).
  split; [exact A |]. split; [exact B |].
  exact (C eq_refl eq_refl eq_refl eq_refl eq_refl).
Defined.

Lemma formatDuration_hours s :
  3600 <= s ->
  formatDuration (Some s) =
  toString (s / 3600) ++ ":" ++ padStart 2 "0" (toString (s mod 3600 / 60))
  ++ ":" ++ padStart 2 "0" (toString (s mod 60)).
Proof.
  intros H. unfold formatDuration.
  destruct (Z.eqb_spec s 0); [lia |].
  rewrite !Z.rem_mod_nonneg by lia.
  destruct (Z.ltb_spec 0 (s / 3600)); [reflexivity | lia].
Qed.

(** X4: from one hour on [formatDuration] prints hours, minutes and seconds:
    split at the colons and read as numbers, its text gives three fields
    that make up the duration again, minutes and seconds below 60; and
    [parseTimeToSeconds] rejects that text. *)
Theorem formatDuration_from_an_hour (s : Z) :
  3600 <= s ->
  map Number (split ":" (formatDuration (Some s)))
  = [Int (s / 3600); Int (s mod 3600 / 60); Int (s mod 60)] /\
  s / 3600 * 3600 + s mod 3600 / 60 * 60 + s mod 60 = s /\
  0 <= s mod 3600 / 60 <= 59 /\ 0 <= s mod 60 <= 59 /\
  parseTimeToSeconds (formatDuration (Some s)) = None.
Proof.
  intros H. rewrite formatDuration_hours by assumption.
  assert (Hh : 0 <= s / 3600) by lia.
  assert (Hm : 0 <= s mod 3600 / 60 <= 59) by lia.
  assert (Hs : 0 <= s mod 60 <= 59) by lia.
  destruct (toString_digits _ Hh) as [Dh _].
  destruct (two_digits_Number _ Hm) as [Dm Nm].
  destruct (two_digits_Number _ Hs) as [Ds Ns].
  split; [| split; [lia | split; [exact Hm | split; [exact Hs |]]]].
  - change (?a ++ ":" ++ ?b) with (a ++ String ":" b).
    rewrite (split_digits _ _ Dh).
    change (?a ++ ":" ++ ?b) with (a ++ String ":" b).
    rewrite (split_digits _ _ Dm), (split_digits_only _ Ds).
    cbn [map]. rewrite (toString_Number _ Hh), Nm, Ns. reflexivity.
  - rewrite parse_spec. unfold spec_parseTime.
    destruct (time_fields _) as [[m sec]|] eqn:E; [| reflexivity].
    assert (F : time_fields
                  (toString (s / 3600) ++ ":"
                   ++ padStart 2 "0" (toString (s mod 3600 / 60)) ++ ":"
                   ++ padStart 2 "0" (toString (s mod 60))) <> None)
      by congruence.
    apply fields_length in F. rewrite !string_length_app in F.
    pose proof (padStart_length 2 "0" (toString (s mod 3600 / 60))).
    pose proof (padStart_length 2 "0" (toString (s mod 60))).
    cbn in F. lia.
Qed.

Lemma formatDuration_from_an_hour_witness :
  map Number (split ":" (formatDuration (Some 3725))) = [Int 1; Int 2; Int 5] /\
  parseTimeToSeconds (formatDuration (Some 3725)) = None.
Proof.
  assert (H : 3600 <= 3725) by discriminate.
  split.
  - exact (proj1 (formatDuration_from_an_hour 3725 H)).
  - apply (formatDuration_from_an_hour 3725 H).
Defined.

Lemma toString_head n :
  exists c rest, toString n = String c rest /\
                 (c = "-"%char \/ is_digit c = true).
Proof.
  destruct (Z.ltb_spec n 0) as [N | N].
  - unfold toString. destruct (Z.ltb_spec n 0); [| lia]. eauto.
  - destruct (toString_digits n N) as [D E].
    destruct (toString n) as [|c rest]; [now elim E |].
    cbn [all_digits] in D. apply andb_prop in D as [D _]. eauto.
Qed.

Lemma formatDuration_known s : s <> 0 -> formatDuration (Some s) <> "Unknown".
Proof.
  intros N. unfold formatDuration.
  destruct (Z.eqb_spec s 0); [contradiction |].
  destruct (0 <? s / 3600).
  - destruct (toString_head (s / 3600)) as (c & rest & -> & [-> | D]);
      [discriminate |].
    intros [= -> _]. discriminate D.
  - destruct (toString_head (Z.rem s 3600 / 60)) as (c & rest & -> & [-> | D]);
      [discriminate |].
    intros [= -> _]. discriminate D.
Qed.

(** X5: the page prints the duration of the video as Unknown exactly when
    validation makes no bounds check, that is when the duration is null or
    0. *)
Theorem unknown_duration_skips_bounds (st : Page) (info : VideoInfo) :
  currentVideoInfo st = Some info ->
  (formatDuration (duration info) = "Unknown" <-> truthy_duration st = None).
Proof.
  intros V. unfold truthy_duration. rewrite V.
  destruct (duration info) as [d|]; [| split; reflexivity].
  destruct (Z.eqb_spec d 0) as [-> | N].
  - split; reflexivity.
  - split; [| discriminate]. intros U. now apply formatDuration_known in U.
Qed.

Lemma unknown_duration_skips_bounds_witness :
  formatDuration (Some 0) = "Unknown"
  <-> truthy_duration (trim_form "0:10" "0:40" true (Some 0)) = None.
Proof.
  exact (unknown_duration_skips_bounds
           (trim_form "0:10" "0:40" true (Some 0))
           {| duration := Some 0 |} eq_refl).
Defined.

(** ** Validation, further *)

Lemma parse_cases text :
  parseTimeToSeconds text = None \/
  exists v, parseTimeToSeconds text = Some (Int v) /\ 0 <= v <= 5999.
Proof.
  destruct (parseTimeToSeconds text) as [n|] eqn:E; [right | now left].
  destruct (parse_Int _ _ E) as (v & -> & _ & _).
  destruct (parse_fields _ _ E) as (m & sec & _ & Hm & Hs & ->).
  exists (m * 60 + sec). split; [reflexivity | lia].
Qed.

Lemma validateTrimTimes_touches_error st :
  snd (validateTrimTimes st)
  = set_error (errorMessage (snd (validateTrimTimes st)))
              (errorModalHidden (snd (validateTrimTimes st))) st.
Proof.
  assert (I : st = set_error (errorMessage st) (errorModalHidden st) st)
    by now destruct st.
  unfold validateTrimTimes.
  repeat match goal with
         | |- context [match ?x with _ => _ end] => destruct x
         end; cbn; (reflexivity || exact I).
Qed.

(** X6: validation changes nothing of the page but the error modal; when
    it returns true the page is as it was; when it returns false, trimming
    is enabled, the modal is open and its message is one of the five
    validation messages. *)
Theorem validateTrimTimes_frame (st : Page) :
  snd (validateTrimTimes st)
  = set_error (errorMessage (snd (validateTrimTimes st)))
              (errorModalHidden (snd (validateTrimTimes st))) st /\
  (fst (validateTrimTimes st) = true -> snd (validateTrimTimes st) = st) /\
  (fst (validateTrimTimes st) = false ->
   isTrimmingEnabled st = true /\
   errorModalHidden (snd (validateTrimTimes st)) = false /\
   exists e, errorMessage (snd (validateTrimTimes st)) = error_text e).
Proof.
  assert (I : st = set_error (errorMessage st) (errorModalHidden st) st)
    by now destruct st.
  destruct (isTrimmingEnabled st) eqn:T.
  - rewrite (validate_first_failure st T).
    destruct (first_failure _ _ _) as [e|]; cbn.
    + repeat split; try discriminate; eauto.
    + repeat split; try discriminate; exact I.
  - unfold validateTrimTimes. rewrite T. cbn.
    repeat split; try discriminate. exact I.
Qed.

(** X7: when validation succeeds with trimming enabled, both texts parse,
    the start is at least 0 and below the end, the end is at most 5999,
    and, when the video has a duration other than 0, the start is below
    it and the end not above it. *)
Theorem validated_range_is_sound (st : Page) :
  isTrimmingEnabled st = true ->
  fst (validateTrimTimes st) = true ->
  exists s e,
    parseTimeToSeconds (startTimeInput st) = Some (Int s) /\
    parseTimeToSeconds (endTimeInput st) = Some (Int e) /\
    0 <= s /\ s < e /\ e <= 5999 /\
    (forall d, truthy_duration st = Some d -> s < d /\ e <= d).
Proof.
  intros T. rewrite (validate_first_failure st T).
  unfold first_failure, check_order.
  destruct (parse_cases (startTimeInput st)) as [-> | (s & -> & Hs)];
    [discriminate |].
  destruct (parse_cases (endTimeInput st)) as [-> | (e & -> & He)];
    [discriminate |].
  cbn. destruct (Z.leb_spec e s); [discriminate |].
  destruct (truthy_duration st) as [d|]; cbn.
  - destruct (Z.leb_spec d s); [discriminate |]. cbn.
    destruct (Z.ltb_spec d e); [discriminate |]. intros _.
    exists s, e. split; [reflexivity |]. split; [reflexivity |].
    repeat (split; [lia |]). intros d' [= <-]. lia.
  - intros _. exists s, e. split; [reflexivity |]. split; [reflexivity |].
    repeat (split; [lia |]). discriminate.
Qed.

Lemma validated_range_is_sound_witness :
  exists s e,
    parseTimeToSeconds "2:05" = Some (Int s) /\
    parseTimeToSeconds "2:35" = Some (Int e) /\
    0 <= s /\ s < e /\ e <= 5999 /\
    (forall d, truthy_duration (trim_form "2:05" "2:35" true (Some 200)) = Some d ->
               s < d /\ e <= d).
Proof.
  exact (validated_range_is_sound
           (trim_form "2:05" "2:35" true (Some 200)) eq_refl eq_refl).
Defined.

(** X8: for 0 <= s < e <= 5999, with the end not above the duration when
    the video has one other than 0, the renderings of [s] and [e] typed
    into the trim inputs pass validation, and the download request carries
    exactly the pair [s], [e]. *)
Theorem rendered_range_is_accepted (st : Page) (fmt : Format) (s e : Z) :
  isTrimmingEnabled st = true ->
  selectedFormat st = Some fmt ->
  startTimeInput st = secondsToTimeStr s ->
  endTimeInput st = secondsToTimeStr e ->
  0 <= s -> s < e -> e <= 5999 ->
  (forall d, truthy_duration st = Some d -> e <= d) ->
  validateTrimTimes st = (true, st) /\
  exists st' handle payload,
    downloadBtn_click st = (st', Some (handle, payload)) /\
    trim_times payload = Some [Some (Int s); Some (Int e)].
Proof.
  intros T F S E Hs Hse He Hd.
  assert (Ps : parseTimeToSeconds (startTimeInput st) = Some (Int s))
    by (rewrite S; apply parse_of_render; lia).
  assert (Pe : parseTimeToSeconds (endTimeInput st) = Some (Int e))
    by (rewrite E; apply parse_of_render; lia).
  assert (V : validateTrimTimes st = (true, st)).
  { rewrite (validate_first_failure st T), Ps, Pe.
    unfold first_failure, check_order. cbn.
    destruct (Z.leb_spec e s); [lia |].
    destruct (truthy_duration st) as [d|]; [| reflexivity].
    specialize (Hd d eq_refl). cbn.
    destruct (Z.leb_spec d s); [lia |]. cbn.
    destruct (Z.ltb_spec d e); [lia | reflexivity]. }
  split; [exact V |].
  unfold downloadBtn_click. rewrite F, V. cbn. rewrite T, Ps, Pe. eauto.
Qed.

Lemma rendered_range_is_accepted_witness :
  validateTrimTimes (trim_form "2:05" "2:35" true (Some 155))
  = (true, trim_form "2:05" "2:35" true (Some 155)) /\
  exists st' handle payload,
    downloadBtn_click (trim_form "2:05" "2:35" true (Some 155))
    = (st', Some (handle, payload)) /\
    trim_times payload = Some [Some (Int 125); Some (Int 155)].
Proof.
  apply (rendered_range_is_accepted
           (trim_form "2:05" "2:35" true (Some 155))
           {| format_id := "18" |} 125 155);
    try reflexivity; try discriminate.
  intros d [= <-]. discriminate.
Defined.

(** ** The hint under the trim inputs *)

(** X9: with trimming enabled, the hint under the trim inputs is green only
    when validation passes or fails on a bounds check alone, and it is the
    red "Invalid times" hint exactly when validation fails on the format
    of the start, on the format of the end or on their order; when no
    bounds are checked the hint is green exactly when validation
    passes. *)
Theorem trim_hint_agrees_with_validation (st : Page) :
  isTrimmingEnabled st = true ->
  (className (updateTrimDuration st) = "text-success" ->
   validateTrimTimes st = (true, st) \/
   validateTrimTimes st = outcome (Some StartBeyondMedia) st \/
   validateTrimTimes st = outcome (Some EndBeyondMedia) st) /\
  (className (updateTrimDuration st) <> "text-success" ->
   updateTrimDuration st
   = {| textContent := "Clip duration: Invalid times";
        className := "text-error" |} /\
   (validateTrimTimes st = outcome (Some BadStart) st \/
    validateTrimTimes st = outcome (Some BadEnd) st \/
    validateTrimTimes st = outcome (Some EndNotAfterStart) st)) /\
  (truthy_duration st = None ->
   (className (updateTrimDuration st) = "text-success"
    <-> fst (validateTrimTimes st) = true)).
Proof.
  intros T. rewrite (validate_first_failure st T).
  unfold updateTrimDuration, first_failure, check_order.
  destruct (parse_cases (startTimeInput st)) as [-> | (s & -> & Hs)].
  { cbn. repeat split; intros; try congruence; auto. }
  destruct (parse_cases (endTimeInput st)) as [-> | (e & -> & He)].
  { cbn. repeat split; intros; try congruence; auto. }
  cbn. destruct (Z.leb_spec e s), (Z.ltb_spec s e); try lia; cbn.
  - repeat split; intros; try congruence; auto.
  - destruct (truthy_duration st) as [d|]; cbn.
    + destruct (d <=? s); cbn; [| destruct (d <? e); cbn];
        repeat split; intros; try congruence; auto.
    + repeat split; intros; try congruence; auto.
Qed.

Lemma trim_hint_agrees_with_validation_witness :
  validateTrimTimes (trim_form "2:05" "2:35" true (Some 100))
  = (true, trim_form "2:05" "2:35" true (Some 100)) \/
  validateTrimTimes (trim_form "2:05" "2:35" true (Some 100))
  = outcome (Some StartBeyondMedia) (trim_form "2:05" "2:35" true (Some 100)) \/
  validateTrimTimes (trim_form "2:05" "2:35" true (Some 100))
  = outcome (Some EndBeyondMedia) (trim_form "2:05" "2:35" true (Some 100)).
Proof.
  exact (proj1 (trim_hint_agrees_with_validation
                  (trim_form "2:05" "2:35" true (Some 100)) eq_refl)
               eq_refl).
Defined.

(** X10: a green hint shows the length of the clip: its text is
    "Clip duration: " followed by the rendering of end minus start, a
    number from 1 to 5999, and that rendering parses back to it. *)
Theorem trim_hint_shows_clip_length (st : Page) :
  className (updateTrimDuration st) = "text-success" ->
  exists s e,
    parseTimeToSeconds (startTimeInput st) = Some (Int s) /\
    parseTimeToSeconds (endTimeInput st) = Some (Int e) /\
    1 <= e - s <= 5999 /\
    textContent (updateTrimDuration st)
    = "Clip duration: " ++ secondsToTimeStr (e - s) /\
    parseTimeToSeconds (secondsToTimeStr (e - s)) = Some (Int (e - s)).
Proof.
  unfold updateTrimDuration.
  destruct (parse_cases (startTimeInput st)) as [-> | (s & -> & Hs)];
    [discriminate |].
  destruct (parse_cases (endTimeInput st)) as [-> | (e & -> & He)];
    [discriminate |].
  cbn. destruct (Z.ltb_spec s e); [| discriminate]. intros _.
  exists s, e. repeat split; try lia. apply parse_of_render. lia.
Qed.

Lemma trim_hint_shows_clip_length_witness :
  exists s e,
    parseTimeToSeconds "2:05" = Some (Int s) /\
    parseTimeToSeconds "12:35" = Some (Int e) /\
    1 <= e - s <= 5999 /\
    textContent (updateTrimDuration (trim_form "2:05" "12:35" true None))
    = "Clip duration: " ++ secondsToTimeStr (e - s) /\
    parseTimeToSeconds (secondsToTimeStr (e - s)) = Some (Int (e - s)).
Proof.
  exact (trim_hint_shows_clip_length
           (trim_form "2:05" "12:35" true None) eq_refl).
Defined.

(** ** The format grid *)

Lemma insert_by_height_perm x l : Permutation (insert_by_height x l) (x :: l).
Proof.
  induction l as [|y l IH]; cbn [insert_by_height]; [reflexivity |].
  destruct (height_or_0 x <? height_or_0 y); [| reflexivity].
  rewrite IH. apply perm_swap.
Qed.

Lemma sort_by_height_perm l : Permutation (sort_by_height l) l.
Proof.
  induction l as [|x l IH]; cbn; [reflexivity |].
  rewrite insert_by_height_perm. now constructor.
Qed.

Lemma insert_by_height_sorted x l :
  StronglySorted not_shorter l -> StronglySorted not_shorter (insert_by_height x l).
Proof.
  induction 1 as [|y l S IH F]; cbn [insert_by_height].
  - repeat constructor.
  - destruct (Z.ltb_spec (height_or_0 x) (height_or_0 y)) as [L | L].
    + constructor; [exact IH |].
      apply (Permutation_Forall (symmetry (insert_by_height_perm x l))).
      constructor; [unfold not_shorter; lia | exact F].
    + constructor; [now constructor |].
      constructor; [exact L |].
      rewrite List.Forall_forall in *. intros z Hz. specialize (F z Hz).
      unfold not_shorter in *. lia.
Qed.

Lemma sort_by_height_sorted l : StronglySorted not_shorter (sort_by_height l).
Proof.
  induction l as [|x l IH]; cbn; [constructor |].
  now apply insert_by_height_sorted.
Qed.

Lemma insert_by_height_stable k x l :
  of_height k (insert_by_height x l) = of_height k (x :: l).
Proof.
  unfold of_height.
  induction l as [|y l IH]; cbn [insert_by_height]; [reflexivity |].
  destruct (Z.ltb_spec (height_or_0 x) (height_or_0 y)) as [L | L];
    [| reflexivity].
  cbn [List.filter] in *. rewrite IH.
  destruct (Z.eqb_spec (height_or_0 x) k), (Z.eqb_spec (height_or_0 y) k);
    try reflexivity. lia.
Qed.

Lemma sorted_app_inv (a b : list Descriptor) :
  StronglySorted not_shorter (a ++ b) ->
  forall x y, In x a -> In y b -> not_shorter x y.
Proof.
  induction a as [|z a IH]; intros S x y Hx Hy; [now elim Hx |].
  cbn in S. apply StronglySorted_inv in S as [S F].
  destruct Hx as [-> | Hx]; [| now apply IH].
  rewrite List.Forall_forall in F. apply F. apply in_or_app. now right.
Qed.

Lemma videoFormats_shown formats fmt :
  In fmt (videoFormats formats) -> In fmt formats /\ has_video fmt = true.
Proof.
  unfold videoFormats. intros I. apply filter_In.
  apply (Permutation_in fmt (sort_by_height_perm _)).
  rewrite <- (firstn_skipn 12 (sort_by_height _)).
  apply in_or_app. now left.
Qed.

(** X11: the format grid shows at most 12 formats, each one a format of the
    metadata with a video codec, from the tallest down; the formats with a
    video codec are the shown ones together with dropped ones, none of
    which is taller than a shown one, and nothing is dropped when there
    are 12 or fewer. *)
Theorem videoFormats_are_the_tallest (formats : list Descriptor) :
  (length (videoFormats formats) <= 12)%nat /\
  (forall fmt, In fmt (videoFormats formats) ->
               In fmt formats /\ has_video fmt = true) /\
  StronglySorted not_shorter (videoFormats formats) /\
  exists rest,
    Permutation (List.filter has_video formats) (videoFormats formats ++ rest) /\
    (forall shown dropped,
       In shown (videoFormats formats) -> In dropped rest ->
       not_shorter shown dropped) /\
    ((length (List.filter has_video formats) <= 12)%nat -> rest = []).
Proof.
  unfold videoFormats.
  set (arranged := sort_by_height (List.filter has_video formats)).
  assert (P : Permutation arranged (List.filter has_video formats))
    by apply sort_by_height_perm.
  assert (S : StronglySorted not_shorter arranged)
    by apply sort_by_height_sorted.
  rewrite <- (firstn_skipn 12 arranged) in P, S.
  split; [apply List.firstn_le_length |].
  split; [| split].
  - apply videoFormats_shown.
  - clear P. revert S. generalize (firstn 12 arranged) as a.
    induction a as [|z a IH]; intros S; [constructor |].
    cbn in S. apply StronglySorted_inv in S as [S F].
    constructor; [now apply IH |].
    rewrite List.Forall_forall in *. intros y Hy. apply F. apply in_or_app. now left.
  - exists (skipn 12 arranged). split; [now symmetry |].
    split; [now apply sorted_app_inv |].
    intros L. apply List.skipn_all2. unfold arranged.
    now rewrite (Permutation_length (sort_by_height_perm _)).
Qed.

(** X12: sorting keeps formats of the same height in the order the metadata
    lists them. *)
Theorem sort_by_height_is_stable (formats : list Descriptor) (k : Z) :
  of_height k (sort_by_height formats) = of_height k formats.
Proof.
  induction formats as [|x l IH]; [reflexivity |].
  cbn [sort_by_height fold_right]. fold (sort_by_height l).
  rewrite insert_by_height_stable. unfold of_height in *.
  cbn [List.filter]. now rewrite IH.
Qed.

Lemma validate_after_selection selected st :
  validateTrimTimes (set_selectedFormat selected st)
  = (fst (validateTrimTimes st),
     set_selectedFormat selected (snd (validateTrimTimes st))).
Proof.
  unfold validateTrimTimes. cbn [isTrimmingEnabled startTimeInput endTimeInput
                                 set_selectedFormat].
  destruct (negb (isTrimmingEnabled st)); [reflexivity |].
  destruct (parseTimeToSeconds (startTimeInput st)); [| reflexivity].
  destruct (parseTimeToSeconds (endTimeInput st)); [| reflexivity].
  destruct (num_le _ _); [reflexivity |].
  change (truthy_duration (set_selectedFormat selected st))
    with (truthy_duration st).
  destruct (truthy_duration st); [| reflexivity].
  destruct (num_ge _ _); [reflexivity |].
  destruct (num_gt _ _); reflexivity.
Qed.

(** X13: after a click on a card of the grid, a click on the download
    button of a page that passes validation sends a request, and the
    format it names is that of the card, a format of the metadata with a
    video codec. *)
Theorem selected_card_is_requested
    (formats : list Descriptor) (i : nat) (fmt : Descriptor) (st : Page) :
  nth_error (videoFormats formats) i = Some fmt ->
  fst (validateTrimTimes st) = true ->
  In fmt formats /\ has_video fmt = true /\
  exists st' handle payload,
    downloadBtn_click (selectFormat fmt st) = (st', Some (handle, payload)) /\
    payload_format_id payload = format_id (descriptor_format fmt).
Proof.
  intros N V. apply nth_error_In in N.
  destruct (videoFormats_shown formats fmt N) as [I H].
  split; [exact I |]. split; [exact H |].
  unfold downloadBtn_click, selectFormat.
  cbn [selectedFormat set_selectedFormat].
  rewrite validate_after_selection, V. cbn. eauto.
Qed.

Lemma selected_card_is_requested_witness :
  In (example_format "137" (Some "avc1.640028") (Some 1080)) example_formats /\
  has_video (example_format "137" (Some "avc1.640028") (Some 1080)) = true /\
  exists st' handle payload,
    downloadBtn_click
      (selectFormat (example_format "137" (Some "avc1.640028") (Some 1080))
                    (trim_form "" "" false None))
    = (st', Some (handle, payload)) /\
    payload_format_id payload = "137".
Proof.
  exact (selected_card_is_requested
           example_formats 0
           (example_format "137" (Some "avc1.640028") (Some 1080))
           (trim_form "" "" false None) eq_refl eq_refl).
Defined.

(** ** Timers and the bar over any sequence of events *)

Lemma round_bounds x : (0 <= x <= 100)%Q -> 0 <= round x <= 100.
Proof.
  intros [L U]. unfold round. split.
  - change 0 with (Qfloor 0). apply Qfloor_resp_le. lra.
  - change 100 with (Qfloor (100 + (1 # 2))). apply Qfloor_resp_le. lra.
Qed.

Ltac page_fields :=
  cbn [currentVideoInfo selectedFormat isTrimmingEnabled videoUrlInput
       startTimeInput endTimeInput errorMessage errorModalHidden
       downloadBtnDisabled downloadProgressHidden progressFill progressText
       progressPercentage intervals nextInterval
       set_error set_download_ui set_bar set_intervals set_form
       set_selectedFormat showError hideError updateProgressBar
       showDownloadProgress hideDownloadProgress clearInterval
       download_resolved download_rejected progressInterval_callback
       fst snd].

Lemma well_formed_step ev st :
  fair ev -> well_formed st -> well_formed (handle_event ev st).
Proof.
  intros F (T & B & R).
  destruct ev; cbn [handle_event fair] in *;
    try (split; [exact T | split; [exact B | exact R]]).
  - (* the URL form is submitted *)
    unfold urlForm_submit. destruct (String.eqb _ _); cbn;
      (split; [exact T | split; [exact B | exact R]]).
  - (* the download button is clicked *)
    unfold downloadBtn_click.
    destruct (selectedFormat st);
      [| split; [exact T | split; [exact B | exact R]]].
    destruct (validateTrimTimes st) as [valid st1] eqn:V.
    pose proof (validateTrimTimes_touches_error st) as E.
    rewrite V in E. cbn [snd] in E.
    destruct valid; cbn [negb].
    2:{ rewrite E. split; [exact T | split; [exact B | exact R]]. }
    apply validate_true in V. subst st1. clear E.
    unfold well_formed, setInterval. page_fields.
    split; [| split; [lra | reflexivity]].
    intros handle p. rewrite lookup_insert.
    destruct (decide (nextInterval st = handle)) as [<- | N].
    + intros [= <-]. split; [lia | lra].
    + intros L. destruct (T _ _ L). split; [lia | assumption].
  - (* a timer comes due *)
    unfold interval_fires.
    destruct (intervals st !! handle) as [p|] eqn:L;
      [| split; [exact T | split; [exact B | exact R]]].
    destruct (T _ _ L) as [H P].
    pose proof (advance_step r p F P) as (_ & A).
    unfold well_formed. page_fields. split; [| split; [lra | reflexivity]].
    intros h q. rewrite lookup_insert.
    destruct (decide (handle = h)) as [<- | N].
    + intros [= <-]. split; assumption.
    + apply T.
  - (* the download resolved *)
    unfold well_formed. page_fields. split; [| split; [lra | reflexivity]].
    intros h q L. apply lookup_delete_Some in L as [_ L]. now apply T.
Qed.

Lemma trim_form_well_formed startText endText trimmingEnabled mediaDuration :
  well_formed (trim_form startText endText trimmingEnabled mediaDuration).
Proof.
  unfold well_formed, trim_form. page_fields.
  split; [| split; [lra | reflexivity]].
  intros handle p L. rewrite lookup_empty in L. discriminate L.
Qed.

Lemma example_events_fair : Forall fair example_events.
Proof.
  repeat constructor; discriminate.
Qed.

(** X14: whatever handlers and timers run, in whatever order, with
    whatever [Math.random()] returns: every live timer keeps a handle
    already issued and a variable between 0 and 90, the bar stays between
    0 and 100, and the percentage printed beside it is the bar rounded, a
    whole number from 0 to 100. *)
Theorem handlers_keep_bar_in_range (evs : list Event) (st : Page) :
  Forall fair evs -> well_formed st ->
  well_formed (handle_events evs st) /\
  (0 <= progressFill (handle_events evs st) <= 100)%Q /\
  0 <= progressPercentage (handle_events evs st) <= 100.
Proof.
  intros F W.
  assert (W' : well_formed (handle_events evs st)).
  { revert st W. induction F as [|ev evs Fev _ IH]; intros st W; [exact W |].
    cbn [handle_events]. apply IH. now apply well_formed_step. }
  split; [exact W' |]. destruct W' as (_ & B & R).
  split; [exact B |]. rewrite R. now apply round_bounds.
Qed.

Lemma handlers_keep_bar_in_range_witness :
  well_formed (handle_events example_events (trim_form "0:10" "0:40" true None)) /\
  (0 <= progressFill (handle_events example_events
                                    (trim_form "0:10" "0:40" true None)) <= 100)%Q /\
  0 <= progressPercentage (handle_events example_events
                                         (trim_form "0:10" "0:40" true None)) <= 100.
Proof.
  exact (handlers_keep_bar_in_range
           example_events (trim_form "0:10" "0:40" true None)
           example_events_fair (trim_form_well_formed _ _ _ _)).
Defined.

Lemma timers_grew_same st st' :
  intervals st' = intervals st -> nextInterval st' = nextInterval st ->
  timers_grew st st'.
Proof.
  intros I N. split; [lia |]. intros handle p' L _. rewrite I in L.
  exists p'. split; [exact L | apply Qle_refl].
Qed.

Lemma timers_grew_trans st1 st2 st3 :
  timers_grew st1 st2 -> timers_grew st2 st3 -> timers_grew st1 st3.
Proof.
  intros [N1 G1] [N2 G2]. split; [lia |].
  intros handle p3 L H.
  destruct (G2 handle p3 L) as (p2 & L2 & Le2); [lia |].
  destruct (G1 handle p2 L2 H) as (p1 & L1 & Le1).
  exists p1. split; [exact L1 | now apply Qle_trans with p2].
Qed.

Lemma timers_grew_step ev st :
  fair ev -> well_formed st -> timers_grew st (handle_event ev st).
Proof.
  intros F (T & _ & _).
  destruct ev; cbn [handle_event fair] in *;
    try (apply timers_grew_same; reflexivity).
  - unfold urlForm_submit. destruct (String.eqb _ _);
      apply timers_grew_same; reflexivity.
  - unfold downloadBtn_click.
    destruct (selectedFormat st); [| apply timers_grew_same; reflexivity].
    destruct (validateTrimTimes st) as [valid st1] eqn:V.
    pose proof (validateTrimTimes_touches_error st) as E.
    rewrite V in E. cbn [snd] in E.
    destruct valid; cbn [negb].
    2:{ rewrite E. apply timers_grew_same; reflexivity. }
    apply validate_true in V. subst st1. clear E.
    unfold timers_grew, setInterval. page_fields. split; [lia |].
    intros handle p'. rewrite lookup_insert.
    destruct (decide (nextInterval st = handle)) as [<- | N]; [lia |].
    intros L _. exists p'. split; [exact L | apply Qle_refl].
  - unfold interval_fires.
    destruct (intervals st !! handle) as [p|] eqn:L;
      [| apply timers_grew_same; reflexivity].
    destruct (T _ _ L) as [_ P].
    pose proof (advance_step r p F P) as (A & _).
    unfold timers_grew. page_fields. split; [lia |].
    intros h q. rewrite lookup_insert.
    destruct (decide (handle = h)) as [<- | N].
    + intros [= <-] _. exists p. split; assumption.
    + intros Lq _. exists q. split; [exact Lq | apply Qle_refl].
  - unfold timers_grew. page_fields. split; [lia |].
    intros h q Lq _. apply lookup_delete_Some in Lq as [_ Lq].
    exists q. split; [exact Lq | apply Qle_refl].
Qed.

(** X15: over any sequence of handlers and timers no handle is issued
    twice and no timer variable goes down: a timer that is live at the end
    under a handle issued before the start was live at the start, and its
    variable is at least what it was then and at most 90. *)
Theorem timers_never_go_back (evs : list Event) (st : Page) :
  Forall fair evs -> well_formed st ->
  (nextInterval st <= nextInterval (handle_events evs st))%nat /\
  forall handle p',
    intervals (handle_events evs st) !! handle = Some p' ->
    (handle < nextInterval st)%nat ->
    exists p, intervals st !! handle = Some p /\ (p <= p' <= 90)%Q.
Proof.
  intros F W.
  assert (G : timers_grew st (handle_events evs st) /\
              well_formed (handle_events evs st)).
  { revert st W. induction F as [|ev evs Fev _ IH]; intros st W.
    - split; [apply timers_grew_same; reflexivity | exact W].
    - cbn [handle_events].
      destruct (IH _ (well_formed_step ev st Fev W)) as [G W'].
      split; [| exact W'].
      eapply timers_grew_trans; [| exact G]. now apply timers_grew_step. }
  destruct G as [[N G] (T & _ & _)]. split; [exact N |].
  intros handle p' L H. destruct (G handle p' L H) as (p & Lp & Le).
  exists p. split; [exact Lp |]. split; [exact Le |]. apply (T _ _ L).
Qed.

Lemma timers_never_go_back_witness :
  (nextInterval (handle_event DownloadClicked (trim_form "" "" false None))
   <= nextInterval
        (handle_events example_events
           (handle_event DownloadClicked (trim_form "" "" false None))))%nat /\
  forall handle p',
    intervals (handle_events example_events
                 (handle_event DownloadClicked (trim_form "" "" false None)))
      !! handle = Some p' ->
    (handle < nextInterval
                (handle_event DownloadClicked (trim_form "" "" false None)))%nat ->
    exists p,
      intervals (handle_event DownloadClicked (trim_form "" "" false None))
        !! handle = Some p /\ (p <= p' <= 90)%Q.
Proof.
  exact (timers_never_go_back
           example_events
           (handle_event DownloadClicked (trim_form "" "" false None))
           example_events_fair
           (well_formed_step DownloadClicked _ I
              (trim_form_well_formed _ _ _ _))).
Defined.

(** X16: a click that starts a download takes a handle under which no
    timer is live, starts that timer at 0 and leaves every other timer as
    it is; it puts the bar at 0 with the preparing label, disables the
    button and shows the progress panel. *)
Theorem click_starts_a_fresh_timer (st st' : Page) (handle : nat) (payload : Payload) :
  well_formed st ->
  downloadBtn_click st = (st', Some (handle, payload)) ->
  intervals st !! handle = None /\
  intervals st' !! handle = Some 0%Q /\
  (forall other, other <> handle -> intervals st' !! other = intervals st !! other) /\
  progressFill st' = 0%Q /\ progressText st' = phase_label PREPARING /\
  downloadBtnDisabled st' = true /\ downloadProgressHidden st' = false.
Proof.
  intros (T & _ & _). unfold downloadBtn_click.
  destruct (selectedFormat st); [| discriminate].
  destruct (validateTrimTimes st) as [[|] st1] eqn:V; cbn [negb];
    [| discriminate].
  apply validate_true in V. subst st1.
  unfold setInterval. intros [= <- <- _]. page_fields.
  split.
  { destruct (intervals st !! nextInterval st) as [p|] eqn:L; [| reflexivity].
    destruct (T _ _ L). lia. }
  split; [apply lookup_insert_eq |].
  split; [intros other N; now apply lookup_insert_ne |].
  repeat split.
Qed.

Lemma click_starts_a_fresh_timer_witness :
  intervals (trim_form "0:10" "0:40" true None) !! 1%nat = None /\
  intervals (fst (downloadBtn_click (trim_form "0:10" "0:40" true None))) !! 1%nat
  = Some 0%Q.
Proof.
  destruct (click_starts_a_fresh_timer
              (trim_form "0:10" "0:40" true None)
              (fst (downloadBtn_click (trim_form "0:10" "0:40" true None)))
              1%nat
              (downloadVideo_payload
                 "https://www.youtube.com/watch?v=Af2rvOlj9UU" "18"
                 (Some [Some (Int 10); Some (Int 40)]))
              (trim_form_well_formed _ _ _ _) eq_refl) as (A & B & _).
  split; [exact A | exact B].
Defined.

(** X17: the catch block of the click handler shows the message, enables
    the button again and hides the progress panel, and leaves every timer
    live: the next tick of the timer of the rejected download advances its
    variable and paints the bar of the hidden panel. *)
Theorem rejected_download_keeps_its_timer
    (st : Page) (handle : nat) (p r : Q) (message : string) :
  intervals st !! handle = Some p ->
  let failed := download_rejected message st in
  intervals failed = intervals st /\
  downloadBtnDisabled failed = false /\
  downloadProgressHidden failed = true /\
  errorMessage failed = message /\ errorModalHidden failed = false /\
  intervals (interval_fires handle r failed) !! handle = Some (advance r p) /\
  progressFill (interval_fires handle r failed) = advance r p /\
  downloadProgressHidden (interval_fires handle r failed) = true.
Proof.
  intros L. cbn zeta.
  assert (L' : intervals (download_rejected message st) !! handle = Some p)
    by exact L.
  unfold interval_fires. rewrite L'. page_fields.
  repeat split. apply lookup_insert_eq.
Qed.

Lemma rejected_download_keeps_its_timer_witness :
  intervals (download_rejected "Download failed: Network error"
               (fst (downloadBtn_click (trim_form "" "" false None)))) !! 1%nat
  = Some 0%Q /\
  progressFill
    (interval_fires 1 (1 # 2)
       (download_rejected "Download failed: Network error"
          (fst (downloadBtn_click (trim_form "" "" false None)))))
  = advance (1 # 2) 0.
Proof.
  destruct (rejected_download_keeps_its_timer
              (fst (downloadBtn_click (trim_form "" "" false None)))
              1%nat 0%Q (1 # 2)%Q "Download failed: Network error" eq_refl)
    as (A & _ & _ & _ & _ & _ & B & _).
  split; [now rewrite A | exact B].
Defined.

(** ** What the user is told about a download *)

Section Told.

Context {Data ErrorData : Type} (error_of : ErrorData -> option string).

(** X19: however a download fails (the fetch fails, the answer is not ok,
    or its body cannot be read), the message shown in the error modal
    starts with "Download failed: ", followed by "Download failed" when
    the answer is not ok and carries no error text; the button is enabled
    again, the progress panel hidden and the bar left as it was. *)
Theorem failed_download_is_reported
    (response : Response Data ErrorData) (failure : string)
    (handle : nat) (st : Page) (panel : ResultPanel) :
  downloadVideo Data ErrorData error_of response = Rejects failure ->
  (exists detail,
     failure = "Download failed: " ++ detail /\
     (forall errorData, response = NotOk (inr errorData) ->
        error_of errorData = None -> detail = "Download failed")) /\
  download_settled handle (Rejects failure) st panel
  = (download_rejected failure st, panel) /\
  errorMessage (download_rejected failure st) = failure /\
  errorModalHidden (download_rejected failure st) = false /\
  downloadBtnDisabled (download_rejected failure st) = false /\
  downloadProgressHidden (download_rejected failure st) = true /\
  progressFill (download_rejected failure st) = progressFill st.
Proof.
  intros D. split; [| repeat split].
  destruct response as [m | [m | e] | [m | d]]; cbn in D;
    try discriminate D; injection D as <-; eexists; (split; [reflexivity |]);
    intros errorData [= E]; subst; intros N; try discriminate.
  now rewrite N.
Qed.


End Told.

Lemma failed_download_is_reported_witness :
  exists detail,
    "Download failed: Download failed" = "Download failed: " ++ detail /\
    (forall errorData : unit,
       @NotOk unit unit (inr tt) = NotOk (inr errorData) ->
       @None string = None -> detail = "Download failed").
Proof.
  exact (proj1 (failed_download_is_reported
                  (fun _ : unit => @None string) (@NotOk unit unit (inr tt))
                  "Download failed: Download failed" 1%nat
                  (trim_form "" "" false None)
                  {| resultMessage := ""; downloadResultHidden := true |}
                  eq_refl)).
Defined.


(** ** The URL form *)

Lemma trimStart_blank s : trimStart s = "" <-> all_space s = true.
Proof.
  induction s as [|c s IH]; cbn [trimStart all_space]; [split; reflexivity |].
  destruct (is_space c); [exact IH |]. split; discriminate.
Qed.

Lemma trimEnd_blank s : trimEnd s = "" <-> all_space s = true.
Proof.
  induction s as [|c s IH]; cbn [trimEnd all_space]; [split; reflexivity |].
  destruct (trimEnd s) as [|k kept].
  - destruct IH as [IH _]. rewrite (IH eq_refl), andb_true_r.
    destruct (is_space c); split; (reflexivity || discriminate).
  - destruct IH as [_ IH]. split; [discriminate |].
    intros H. apply andb_prop in H as [_ H]. discriminate (IH H).
Qed.

Lemma trimStart_not_blank s : trimStart s <> "" -> all_space (trimStart s) = false.
Proof.
  induction s as [|c s IH]; cbn [trimStart]; [intros H; now elim H |].
  destruct (is_space c) eqn:E; [exact IH |].
  intros _. cbn [all_space]. now rewrite E.
Qed.

Lemma trim_blank s : trim s = "" <-> all_space s = true.
Proof.
  unfold trim. rewrite trimEnd_blank. split.
  - intros H. apply trimStart_blank.
    destruct (string_dec (trimStart s) "") as [E | N]; [exact E |].
    apply trimStart_not_blank in N. congruence.
  - intros H. apply trimStart_blank in H. now rewrite H.
Qed.

(** X21: a URL made of white space only, the empty one included, is not
    looked up: the submit handler shows "Please enter a valid YouTube URL"
    and changes nothing else. Any other URL is looked up trimmed, after
    the selected format and the video information have been cleared, with
    the error modal untouched. *)
Theorem blank_url_is_not_looked_up (st : Page) :
  (all_space (videoUrlInput st) = true ->
   urlForm_submit st = (showError "Please enter a valid YouTube URL" st, None)) /\
  (all_space (videoUrlInput st) = false ->
   exists url,
     snd (urlForm_submit st) = Some url /\ url = trim (videoUrlInput st) /\
     url <> "" /\
     selectedFormat (fst (urlForm_submit st)) = None /\
     currentVideoInfo (fst (urlForm_submit st)) = None /\
     errorMessage (fst (urlForm_submit st)) = errorMessage st /\
     errorModalHidden (fst (urlForm_submit st)) = errorModalHidden st).
Proof.
  unfold urlForm_submit. split; intros B.
  - apply trim_blank in B. now rewrite B.
  - destruct (String.eqb_spec (trim (videoUrlInput st)) "") as [E | N].
    + apply trim_blank in E. congruence.
    + exists (trim (videoUrlInput st)). repeat split. exact N.
Qed.

Lemma validate_false st st1 :
  validateTrimTimes st = (false, st1) ->
  exists e, st1 = showError (error_text e) st.
Proof.
  destruct (isTrimmingEnabled st) eqn:T.
  - rewrite (validate_first_failure st T).
    destruct (first_failure _ _ _) as [e|]; cbn; [| discriminate].
    intros [= <-]. eauto.
  - unfold validateTrimTimes. rewrite T. discriminate.
Qed.

(** X22: a click on the download button sends a request exactly when a
    format is selected and validation passes; when it sends none it opens
    the error modal and changes nothing else: no timer is started and the
    bar, the button and the progress panel stay as they were. *)
Theorem request_sent_iff_chosen_and_valid (st : Page) :
  (snd (downloadBtn_click st) <> None <->
   selectedFormat st <> None /\ fst (validateTrimTimes st) = true) /\
  (snd (downloadBtn_click st) = None ->
   fst (downloadBtn_click st)
   = set_error (errorMessage (fst (downloadBtn_click st))) false st).
Proof.
  unfold downloadBtn_click.
  destruct (selectedFormat st) as [fmt|].
  - destruct (validateTrimTimes st) as [[|] st1] eqn:V; cbn [negb fst snd].
    + apply validate_true in V. subst st1. cbn. split.
      * split; [intros _; split; [discriminate | reflexivity] | discriminate].
      * discriminate.
    + apply validate_false in V as [e ->]. split; [| reflexivity].
      split; [intros N; now elim N | intros [_ N]; discriminate N].
  - cbn. split; [| reflexivity].
    split; [intros N; now elim N | intros [N _]; now elim N].
Qed.
